(** * mikrotik-exporter: start-up, configuration and HTTP wiring

    A shallow embedding of [main.go] and of package [config] of
    ananthb/mikrotik-exporter, and the properties of its start-up path:
    how the configuration is loaded, how the collector options are built
    from the command-line flags and the configuration file, and how the
    HTTP server answers.

    Go values are embedded as follows.  A [string] is a Rocq [string], a
    [[]byte] a [list byte], a [bool] a [bool], a [time.Duration] (an int64
    count of nanoseconds, only ever compared here) a [Z].  A slice is a
    [list] (the nil slice is the empty list), a pointer that may be nil an
    [option], an [error] that may be nil an [option error].  A function
    with several results returns a tuple, so [(nil, err)] is
    [(None, Some err)].  The map of [http.ServeMux] is a [gmap].

    Code outside the repository (the YAML decoder, logrus, net/http, the
    Prometheus client) enters through type classes whose fields are the
    library calls the program makes. *)

From stdpp Require Import base strings list gmap.
From Stdlib Require Import ZArith Strings.Byte.

Open Scope string_scope.
Open Scope list_scope.
Open Scope stdpp_scope.

(** ** Go's [error] *)

(** An error value, identified by what its [Error()] method returns. *)
Inductive error := errorString (msg : string).

Definition Error (e : error) : string :=
  match e with errorString msg => msg end.

#[global] Instance error_eq_dec : EqDecision error.
Proof. solve_decision. Defined.

(** The line feed, for the messages that contain one. *)
Definition LF : string := String (Ascii.ascii_of_nat 10) EmptyString.

(** ** Package [config] *)

Module config.

(** [type Features struct]: one toggle per feature domain, in the order
    of the source. *)
Record Features := mkFeatures {
  BGP : bool;
  Conntrack : bool;
  DHCP : bool;
  DHCPL : bool;
  DHCPv6 : bool;
  Firmware : bool;
  Health : bool;
  Routes : bool;
  POE : bool;
  Pools : bool;
  Optics : bool;
  W60G : bool;
  WlanSTA : bool;
  Capsman : bool;
  WlanIF : bool;
  Monitor : bool;
  Ipsec : bool;
  Lte : bool;
  Netwatch : bool
}.

(** [type DnsServer struct]. *)
Record DnsServer := mkDnsServer {
  DnsAddress : string;   (* Address *)
  DnsPort : Z            (* Port *)
}.

(** [type SrvRecord struct]. *)
Record SrvRecord := mkSrvRecord {
  SrvName : string;      (* Record *)
  Dns : DnsServer
}.

(** [type Device struct]. *)
Record Device := mkDevice {
  Name : string;
  Address : string;
  Srv : SrvRecord;
  User : string;
  Password : string;
  Port : string
}.

(** [type Config struct].  The field [Features] of the source is
    [Features_] here, since the record type already has that name. *)
Record Config := mkConfig {
  Devices : list Device;
  Features_ : Features
}.

(** The zero values Go gives to a struct whose fields are not set. *)
Definition zeroFeatures : Features :=
  mkFeatures false false false false false false false false false false
             false false false false false false false false false.

Definition zeroDnsServer : DnsServer := mkDnsServer "" 0.

Definition zeroSrvRecord : SrvRecord := mkSrvRecord "" zeroDnsServer.

Definition zeroDevice : Device := mkDevice "" "" zeroSrvRecord "" "" "".

(** [Config{}], which is what [&Config{}] points to. *)
Definition zeroConfig : Config := mkConfig [] zeroFeatures.

(** *** The YAML decoder ([gopkg.in/yaml.v2], outside the repository)

    [yaml.Unmarshal] parses the bytes into a tree of nodes and decodes the
    tree into the value it is given.  What it does with a [*Config] is
    fixed by the struct tags of the source: the key [devices] is decoded
    into [Devices], the key [features] into [Features], a merge key [<<]
    merges the mapping it points to into the struct, any other key is
    skipped (the decoder is not strict).  The walk over the struct is
    written out below; the parser, the resolution of scalars and the
    decoding of a node into one field are the library's business and are
    fields of the class. *)

(** [type node struct], with the fields the decoder reads.  The children
    of a mapping are its keys and values in turn, kept here as pairs; an
    alias points to the node that carries its anchor. *)
#[warnings="-register-all"]
Inductive node :=
| documentNode (line : Z) (children : list node)
| scalarNode (line : Z) (tag value : string) (implicit : bool)
| mappingNode (line : Z) (tag : string) (children : list (node * node))
| sequenceNode (line : Z) (tag : string) (children : list node)
| aliasNode (line : Z) (value : string) (alias : node).

Definition yaml_SEQ_TAG : string := "tag:yaml.org,2002:seq".
Definition yaml_MERGE_TAG : string := "tag:yaml.org,2002:merge".

(** [type decoder struct]: the type errors gathered so far, and the
    counters that bound the expansion of aliases. *)
Record decoder := mkDecoder {
  terrors : list string;
  decodeCount : Z;
  aliasCount : Z;
  aliasDepth : Z
}.

Definition newDecoder : decoder := mkDecoder [] 0 0 0.

(** How a step of the decoder that fills a [T] ends: the message of
    [failf] when the step gives up (the deferred [handleErr] of
    [Unmarshal] turns it into the error returned), the [T] as the step
    leaves it, and the decoder. *)
Definition Step (T : Type) : Type := option string * T * decoder.

Class Yaml := {
  (** the parser: a syntax error, no document at all (empty input), or the
      document node *)
  parse : list byte -> error + option node;
  (** the first lines of [d.scalar], up to [resolved == nil]: they give
      up, or give the tag of the scalar and whether its value is nil *)
  resolveScalar : node -> string + (string * bool);
  (** [d.unmarshal(n, name)] for the string [name] that [mappingStruct]
      reads keys into: the key, when the call returns true *)
  unmarshalString : node -> decoder -> Step (option string);
  (** [d.unmarshal(n, field)] for the two fields of [Config] *)
  unmarshalDevices : node -> list Device -> decoder -> Step (list Device);
  unmarshalFeatures : node -> Features -> decoder -> Step Features;
  (** the message of [d.terror(n, tag, out)] for an [out] of that type *)
  typeError : node -> string -> string -> string;
  (** whether [aliasCount / decodeCount] is above the ratio allowed for
      [decodeCount] (never, in the releases that do not bound it) *)
  aliasRatioExceeded : Z -> Z -> bool
}.

Section Decoder.
Context {Y : Yaml}.

(** [isMerge(n)]. *)
Definition isMerge (n : node) : bool :=
  match n with
  | scalarNode _ tag value implicit =>
      bool_decide (value = "<<")
      && (implicit || bool_decide (tag = yaml_MERGE_TAG))
  | _ => false
  end.

Definition isMapping (n : node) : bool :=
  match n with mappingNode _ _ _ => true | _ => false end.

(** The message of [failWantMap()]. *)
Definition failWantMap : string :=
  "map merge requires map or sequence of maps as the value".

(** The first lines of [d.unmarshal]: the node is counted, and the call
    gives up when too large a share of the decoding went into aliases. *)
Definition enter (d : decoder) : option string * decoder :=
  let d := mkDecoder (terrors d) (decodeCount d + 1)
             (if (0 <? aliasDepth d)%Z then aliasCount d + 1 else aliasCount d)
             (aliasDepth d) in
  if (100 <? aliasCount d)%Z && (1000 <? decodeCount d)%Z
     && aliasRatioExceeded (aliasCount d) (decodeCount d)
  then (Some "document contains excessive aliasing", d)
  else (None, d).

(** [d.terror(n, tag, out)] for an [out] of type [type]. *)
Definition terror (d : decoder) (n : node) (tag type : string) : decoder :=
  mkDecoder (terrors d ++ [typeError n tag type]) (decodeCount d)
            (aliasCount d) (aliasDepth d).

(** One step after the other: a step that gave up ends the walk. *)
Definition next (r : Step Config) (k : Config -> decoder -> Step Config)
  : Step Config :=
  match r with
  | (Some msg, out, d) => (Some msg, out, d)
  | (None, out, d) => k out d
  end.

(** [d.merge(n, out)], given [d.unmarshal] for the nodes below [n]: a
    mapping, an alias of a mapping, or a sequence of these, which is
    walked from its last element to its first. *)
Definition merge (unmarshal : node -> Config -> decoder -> Step Config)
  (n : node) (out : Config) (d : decoder) : Step Config :=
  match n with
  | mappingNode _ _ _ => unmarshal n out d
  | aliasNode _ _ alias =>
      if negb (isMapping alias) then (Some failWantMap, out, d)
      else unmarshal n out d
  | sequenceNode _ _ children =>
      (fix backwards (children : list node) (out : Config) (d : decoder)
         : Step Config :=
         match children with
         | [] => (None, out, d)
         | ni :: rest =>
             next (backwards rest out d) (fun out d =>
               match ni with
               | aliasNode _ _ alias =>
                   if negb (isMapping alias) then (Some failWantMap, out, d)
                   else unmarshal ni out d
               | mappingNode _ _ _ => unmarshal ni out d
               | _ => (Some failWantMap, out, d)
               end)
         end) children out d
  | _ => (Some failWantMap, out, d)
  end.

(** The value of the key [name] decoded into the field that carries the
    yaml tag [name], if there is one. *)
Definition mappingField (name : string) (v : node) (out : Config) (d : decoder)
  : Step Config :=
  if decide (name = "devices") then
    let '(failed, ds, d) := unmarshalDevices v (Devices out) d in
    (failed, mkConfig ds (Features_ out), d)
  else if decide (name = "features") then
    let '(failed, fs, d) := unmarshalFeatures v (Features_ out) d in
    (failed, mkConfig (Devices out) fs, d)
  else (None, out, d).

(** [d.mappingStruct(n, out)] over the children of [n], given
    [d.unmarshal] for the nodes below. *)
Definition mappingStruct
  (unmarshal : node -> Config -> decoder -> Step Config) :=
  fix mappingStruct (children : list (node * node)) (out : Config)
    (d : decoder) : Step Config :=
    match children with
    | [] => (None, out, d)
    | (ni, v) :: rest =>
        if isMerge ni then
          next (merge unmarshal v out d) (mappingStruct rest)
        else
          match unmarshalString ni d with
          | (Some msg, _, d) => (Some msg, out, d)
          | (None, None, d) => mappingStruct rest out d
          | (None, Some name, d) =>
              next (mappingField name v out d) (mappingStruct rest)
          end
    end.

(** [d.unmarshal(n, out)] for an [out] of type [Config]. *)
Fixpoint unmarshal (n : node) (out : Config) (d : decoder) {struct n}
  : Step Config :=
  match enter d with
  | (Some msg, d) => (Some msg, out, d)
  | (None, d) =>
      match n with
      | documentNode _ children =>
          match children with
          | [c] => unmarshal c out d
          | _ => (None, out, d)
          end
      | aliasNode _ _ alias =>
          let d := mkDecoder (terrors d) (decodeCount d) (aliasCount d)
                             (aliasDepth d + 1) in
          next (unmarshal alias out d) (fun out d =>
            (None, out, mkDecoder (terrors d) (decodeCount d) (aliasCount d)
                                  (aliasDepth d - 1)))
      | scalarNode _ _ _ _ =>
          match resolveScalar n with
          | inl msg => (Some msg, out, d)
          | inr (tag, true) => (None, zeroConfig, d)
          | inr (tag, false) => (None, out, terror d n tag "config.Config")
          end
      | mappingNode _ _ children => mappingStruct unmarshal children out d
      | sequenceNode _ _ _ =>
          (None, out, terror d n yaml_SEQ_TAG "config.Config")
      end
  end.

(** The [*yaml.TypeError] that gathers the type errors of one call. *)
Definition TypeError (errs : list string) : error :=
  errorString ("yaml: unmarshal errors:" +:+ LF +:+ "  "
               +:+ String.concat (LF +:+ "  ") errs).

(** [yaml.Unmarshal(data, out)]: what [out] points to afterwards, and the
    error returned. *)
Definition Unmarshal (data : list byte) (out : Config)
  : Config * option error :=
  match parse data with
  | inl err => (out, Some err)
  | inr None => (out, None)
  | inr (Some n) =>
      let '(failed, c, d) := unmarshal n out newDecoder in
      match failed with
      | Some msg => (c, Some (errorString ("yaml: " +:+ msg)))
      | None =>
          (c, match terrors d with
              | [] => None
              | errs => Some (TypeError errs)
              end)
      end
  end.

(** [func Load(data []byte)], which returns a [*Config] and an [error]. *)
Definition Load (data : list byte) : option Config * option error :=
  let c := zeroConfig in
  let '(c, err) := Unmarshal data c in
  match err with
  | Some err => (None, Some err)
  | None => (Some c, None)
  end.

End Decoder.

End config.

(** ** Package [collector] (of the repository, not among the sources) *)

Module collector.

(** Modelled from the spec: package [collector] is missing from the
    sources, so an [Option] is represented by the constructor call that
    made it.  [main.go] calls these twenty-one constructors and no other;
    the source's [collector.Monitor()] keeps its name. *)
Inductive Option :=
| WithBGP
| WithRoutes
| WithDHCP
| WithDHCPL
| WithDHCPv6
| WithFirmware
| WithHealth
| WithPOE
| WithPools
| WithOptics
| WithW60G
| WithWlanSTA
| WithCapsman
| WithWlanIF
| Monitor
| WithIpsec
| WithConntrack
| WithLte
| WithNetwatch
| WithTimeout (d : Z)
| WithTLS (insecure : bool).

#[global] Instance Option_eq_dec : EqDecision Option.
Proof. solve_decision. Defined.

(** Modelled from the spec: the timeout a collector built from [opts]
    works with.  The constructor starts from the package's default and
    applies the options in order; only [WithTimeout] touches the timeout. *)
Definition timeoutOf (DefaultTimeout : Z) (opts : list Option) : Z :=
  fold_left (fun t o => match o with WithTimeout d => d | _ => t end)
            opts DefaultTimeout.

End collector.

(** ** logrus ([github.com/sirupsen/logrus], imported as [log]) *)

Module log.

Inductive Level :=
| PanicLevel | FatalLevel | ErrorLevel | WarnLevel
| InfoLevel | DebugLevel | TraceLevel.

Inductive Formatter := TextFormatter | JSONFormatter.

Record Logger := mkLogger {
  level : Level;
  formatter : Formatter
}.

(** [log.New()], which is also how the standard logger starts. *)
Definition New : Logger := mkLogger InfoLevel TextFormatter.

(** [type Level uint32]: the constants count up from [PanicLevel]. *)
Definition rank (lvl : Level) : Z :=
  match lvl with
  | PanicLevel => 0 | FatalLevel => 1 | ErrorLevel => 2 | WarnLevel => 3
  | InfoLevel => 4 | DebugLevel => 5 | TraceLevel => 6
  end.

(** [logger.IsLevelEnabled(lvl)]: [logger.level() >= lvl]. *)
Definition IsLevelEnabled (logger : Logger) (lvl : Level) : bool :=
  (rank lvl <=? rank (level logger))%Z.

End log.

(** ** Package [path] *)

Module path.

Definition slash : Ascii.ascii := Ascii.ascii_of_nat 47.
Definition dot : Ascii.ascii := Ascii.ascii_of_nat 46.

(** The output buffer of [Clean] is kept as the list of the bytes written
    so far, the last one first.

    [out.w--; for out.w > dotdot && out.index(out.w) != '/' { out.w-- }],
    from after the first decrement: [last] is the byte at [out.w]. *)
Fixpoint backtrack (out : list Ascii.ascii) (last : Ascii.ascii) (dotdot : nat)
  : list Ascii.ascii :=
  match out with
  | [] => []
  | c :: out' =>
      if (dotdot <? length out)%nat && negb (Ascii.eqb last slash)
      then backtrack out' c dotdot
      else out
  end.

(** The element [..] of the input. *)
Definition dotdotElement (rooted : bool) (out : list Ascii.ascii) (dotdot : nat)
  : list Ascii.ascii * nat :=
  if (dotdot <? length out)%nat then
    (* can backtrack *)
    match out with
    | c :: out' => (backtrack out' c dotdot, dotdot)
    | [] => (out, dotdot)
    end
  else if negb rooted then
    (* cannot backtrack, but not rooted, so append .. element *)
    let out := if (0 <? length out)%nat then slash :: out else out in
    let out := dot :: dot :: out in
    (out, length out)
  else (out, dotdot).

(** The loop of [Clean] over what is left of the input.  [inName] says
    that the bytes of a path element are being copied; the slash that
    ends the copy is the one the next round of the loop skips. *)
Fixpoint cleanLoop (rest : list Ascii.ascii) (inName rooted : bool)
  (out : list Ascii.ascii) (dotdot : nat) {struct rest} : list Ascii.ascii :=
  let name (c : Ascii.ascii) (out : list Ascii.ascii) :=
    (* real path element: add slash if needed, then copy the element *)
    let out :=
      if (rooted && negb (length out =? 1)%nat)
         || (negb rooted && negb (length out =? 0)%nat)
      then slash :: out else out in
    c :: out in
  match rest with
  | [] => out
  | c :: r =>
      if inName then
        if Ascii.eqb c slash then cleanLoop r false rooted out dotdot
        else cleanLoop r true rooted (c :: out) dotdot
      else if Ascii.eqb c slash then
        (* empty path element *)
        cleanLoop r false rooted out dotdot
      else if Ascii.eqb c dot then
        match r with
        | [] =>
            (* . element *)
            cleanLoop r false rooted out dotdot
        | c2 :: r2 =>
            if Ascii.eqb c2 slash then
              (* . element *)
              cleanLoop r false rooted out dotdot
            else if Ascii.eqb c2 dot then
              match r2 with
              | [] =>
                  (* .. element: remove to last / *)
                  let '(out, dotdot) := dotdotElement rooted out dotdot in
                  cleanLoop r2 false rooted out dotdot
              | c3 :: _ =>
                  if Ascii.eqb c3 slash then
                    let '(out, dotdot) := dotdotElement rooted out dotdot in
                    cleanLoop r2 false rooted out dotdot
                  else cleanLoop r true rooted (name c out) dotdot
              end
            else cleanLoop r true rooted (name c out) dotdot
        end
      else cleanLoop r true rooted (name c out) dotdot
  end.

(** [path.Clean(path)]. *)
Definition Clean (path : string) : string :=
  match String.list_ascii_of_string path with
  | [] => "."
  | c :: rest =>
      let rooted := Ascii.eqb c slash in
      let out :=
        if rooted then cleanLoop rest false true [slash] 1
        else cleanLoop (c :: rest) false false [] 0 in
      match out with
      | [] => "."
      | _ => String.string_of_list_ascii (rev out)
      end
  end.

End path.

(** ** net/http

    The part of the library the program relies on: a [ResponseWriter]
    that defaults to status 200, and the [ServeMux] of Go up to release
    1.21 (which later releases keep under [GODEBUG=httpmuxgo121=1]).  It
    panics on a repeated pattern, brings the path of a request into its
    canonical form, and routes to the exact pattern first, then to the
    longest pattern ending in a slash, a pattern that names the request's
    host taking precedence over one that names none.  It takes patterns
    literally; later releases read a method, wildcards in braces and
    percent escapes in a pattern, so the properties of routing below are
    stated for patterns without them. *)

Module http.

Definition StatusOK : Z := 200.
Definition StatusMovedPermanently : Z := 301.
Definition StatusBadRequest : Z := 400.
Definition StatusNotFound : Z := 404.
Definition StatusInternalServerError : Z := 500.

(** [http.ErrServerClosed]. *)
Definition ErrServerClosed : error := errorString "http: Server closed".

(** A request as a mux reads it: [r.Method], [r.Host], and of [r.URL]
    the fields [Path], [RawQuery], [Host] and [RawPath].  The request
    target [*] is the one that is parsed to the path [*].  [RawPath] is
    empty unless the path was sent with escapes that its decoded form does
    not show; the mux below does not read it, the one of later releases
    does. *)
Record Request := mkRequest {
  Method : string;
  Host : string;
  Path : string;
  RawQuery : string;
  URL_Host : string;
  RawPath : string
}.

(** What a handler has sent through its [ResponseWriter]: the status code
    once the header is written, the [Location] header, the body. *)
Record ResponseWriter := mkResponseWriter {
  status : option Z;
  location : option string;
  body : list byte
}.

(** The writer a handler starts with. *)
Definition fresh : ResponseWriter := mkResponseWriter None None [].

(** [w.WriteHeader(code)]: only the first call counts. *)
Definition WriteHeader (w : ResponseWriter) (code : Z) : ResponseWriter :=
  match status w with
  | Some _ => w
  | None => mkResponseWriter (Some code) (location w) (body w)
  end.

(** [w.Write(b)]: the header goes out first, with [StatusOK] when
    [WriteHeader] was not called. *)
Definition Write (w : ResponseWriter) (b : list byte) : ResponseWriter :=
  let w := WriteHeader w StatusOK in
  mkResponseWriter (status w) (location w) (body w ++ b).

(** [http.Error(w, msg, code)]. *)
Definition Error_ (w : ResponseWriter) (msg : string) (code : Z)
  : ResponseWriter :=
  Write (WriteHeader w code) (String.list_byte_of_string (msg +:+ LF)).

(** How a call of a handler ends. *)
Inductive Served :=
| Returned (w : ResponseWriter)
| Panicked (v : string).

(** What the mux calls of the rest of the library. *)
Class Net := {
  (** [net.SplitHostPort(hostport)]: host and port, when there is no error *)
  SplitHostPort : string -> option (string * string);
  (** [u.String()] for [u := &url.URL{Path: path, RawQuery: query}] *)
  URL_String : string -> string -> string;
  (** [http.Redirect(w, r, url, code)], as what the writer holds after it *)
  Redirect : ResponseWriter -> Request -> string -> Z -> ResponseWriter
}.

Definition slash : Ascii.ascii := path.slash.

Definition firstByte (s : string) : option Ascii.ascii := String.get 0 s.

Definition lastByte (s : string) : option Ascii.ascii :=
  String.get (String.length s - 1) s.

(** [cleanPath(p)]: the canonical path for [p], without [.] and [..]
    elements and without doubled slashes. *)
Definition cleanPath (p : string) : string :=
  if decide (p = "") then "/"
  else
    let p := if decide (firstByte p = Some slash) then p else "/" +:+ p in
    let np := path.Clean p in
    (* path.Clean removes trailing slash except for root;
       put the trailing slash back if necessary. *)
    if decide (lastByte p = Some slash /\ np <> "/") then
      if bool_decide (String.length p = String.length np + 1)%nat
         && String.prefix np p
      then p
      else np +:+ "/"
    else np.

Section Mux.
(** What a handler can read besides the request: the program's globals
    and the state of the world when the request arrives. *)
Context {C : Type} {N : Net}.

Definition Handler := C -> ResponseWriter -> Request -> Served.

(** [http.NotFoundHandler()]. *)
Definition NotFoundHandler : Handler :=
  fun _ w _ => Returned (Error_ w "404 page not found" StatusNotFound).

(** [http.RedirectHandler(url, code)]. *)
Definition RedirectHandler (url : string) (code : Z) : Handler :=
  fun _ w r => Returned (Redirect w r url code).

Record muxEntry := mkMuxEntry {
  h : Handler;
  pattern : string
}.

(** [type ServeMux struct]: the patterns registered, those ending in a
    slash sorted from longest to shortest, and whether some pattern names
    a host. *)
Record ServeMux := mkServeMux {
  m : gmap string muxEntry;
  es : list muxEntry;
  hosts : bool
}.

Definition NewServeMux : ServeMux := mkServeMux ∅ [] false.

(** [appendSorted]: [e] goes before the first entry with a shorter
    pattern. *)
Fixpoint appendSorted (es : list muxEntry) (e : muxEntry) : list muxEntry :=
  match es with
  | [] => [e]
  | e' :: rest =>
      if (String.length (pattern e') <? String.length (pattern e))%nat
      then e :: e' :: rest
      else e' :: appendSorted rest e
  end.

(** [mux.Handle(pattern, handler)].  It panics on an empty pattern, on a
    nil handler and on a pattern registered before; the result is the mux
    after the call, or the value of the panic. *)
Definition Handle (mux : ServeMux) (pat : string) (handler : option Handler)
  : ServeMux + string :=
  if decide (pat = "") then inr "http: invalid pattern"
  else match handler with
  | None => inr "http: nil handler"
  | Some handler =>
      match m mux !! pat with
      | Some _ => inr ("http: multiple registrations for " +:+ pat)
      | None =>
          let e := mkMuxEntry handler pat in
          inl (mkServeMux
                 (<[pat := e]> (m mux))
                 (if decide (lastByte pat = Some slash)
                  then appendSorted (es mux) e else es mux)
                 (if decide (firstByte pat = Some slash)
                  then hosts mux else true))
      end
  end.

(** [mux.HandleFunc(pattern, f)]. *)
Definition HandleFunc (mux : ServeMux) (pat : string) (f : option Handler)
  : ServeMux + string :=
  match f with
  | None => inr "http: nil handler"
  | Some f => Handle mux pat (Some f)
  end.

(** [mux.match(path)]: the exact pattern first, then the longest pattern
    ending in a slash that the path starts with. *)
Definition match_ (mux : ServeMux) (path : string) : option muxEntry :=
  match m mux !! path with
  | Some v => Some v
  | None => find (fun e => String.prefix (pattern e) path) (es mux)
  end.

(** [mux.handler(host, path)]: a pattern that names the host wins over
    one that does not. *)
Definition handler (mux : ServeMux) (host path : string) : Handler :=
  let r := if hosts mux then match_ mux (host +:+ path) else None in
  let r := match r with Some e => Some e | None => match_ mux path end in
  match r with
  | Some e => h e
  | None => NotFoundHandler
  end.

(** [mux.shouldRedirectRLocked(host, path)]: [path] is not registered and
    [path + "/"] is. *)
Definition shouldRedirect (mux : ServeMux) (host path : string) : bool :=
  if decide (is_Some (m mux !! path)) then false
  else if decide (is_Some (m mux !! (host +:+ path))) then false
  else if decide (path = "") then false
  else if decide (is_Some (m mux !! (path +:+ "/"))) then
    negb (bool_decide (lastByte path = Some slash))
  else if decide (is_Some (m mux !! (host +:+ path +:+ "/"))) then
    negb (bool_decide (lastByte path = Some slash))
  else false.

(** [strings.Contains(h, ":")]. *)
Definition containsColon (h : string) : bool :=
  existsb (Ascii.eqb (Ascii.ascii_of_nat 58)) (String.list_ascii_of_string h).

(** [stripHostPort(h)]: [h] without any trailing [:port]. *)
Definition stripHostPort (h : string) : string :=
  if negb (containsColon h) then h
  else match SplitHostPort h with
       | Some (host, _) => host
       | None => h
       end.

(** [mux.redirectToPathSlash(host, path, u)]: the URL to redirect to when
    [path] is not registered and [path + "/"] is. *)
Definition redirectToPathSlash (mux : ServeMux) (host path query : string)
  : option string :=
  if shouldRedirect mux host path
  then Some (URL_String (path +:+ "/") query)
  else None.

(** [mux.Handler(r)]. *)
Definition ServeMux_Handler (mux : ServeMux) (r : Request) : Handler :=
  if decide (Method r = "CONNECT") then
    (* CONNECT requests are not canonicalized. *)
    match redirectToPathSlash mux (URL_Host r) (Path r) (RawQuery r) with
    | Some u => RedirectHandler u StatusMovedPermanently
    | None => handler mux (Host r) (Path r)
    end
  else
    (* All other requests have any port stripped and path cleaned
       before passing to mux.handler. *)
    let host := stripHostPort (Host r) in
    let path := cleanPath (Path r) in
    match redirectToPathSlash mux host path (RawQuery r) with
    | Some u => RedirectHandler u StatusMovedPermanently
    | None =>
        if decide (path <> Path r)
        then RedirectHandler (URL_String path (RawQuery r))
               StatusMovedPermanently
        else handler mux host (Path r)
    end.

(** [mux.ServeHTTP(w, r)]. *)
Definition ServeHTTP (mux : ServeMux) : Handler :=
  fun c w r =>
    if decide (Path r = "*")
    then Returned (WriteHeader w StatusBadRequest)
    else ServeMux_Handler mux r c w r.

(** [type Server struct], with the two fields the program sets. *)
Record Server := mkServer {
  Addr : string;
  Server_Handler : ServeMux
}.

End Mux.

Arguments Handler C : clear implicits.
Arguments muxEntry C : clear implicits.
Arguments ServeMux C : clear implicits.
Arguments Server C : clear implicits.

End http.

(** ** The Prometheus client ([prometheus], [collectors], [promhttp]) *)

Module prometheus.

Class Client := {
  (** the state of the world, devices included, when a scrape arrives *)
  Scrape : Type;
  MetricFamily : Type;
  (** one metric family in the exposition format *)
  encodeFamily : MetricFamily -> list byte;
  (** [prometheus.MultiError], the errors of one [Gather] as one error *)
  MultiError : list error -> error;
  (** [collectors.NewGoCollector()], as what it collects *)
  NewGoCollector : Scrape -> list MetricFamily * list error;
  (** why [Register] refuses a collector, given those registered so far *)
  registerError :
    list (Scrape -> list MetricFamily * list error) ->
    (Scrape -> list MetricFamily * list error) -> option error
}.

Section Registry.
Context {P : Client}.

(** A [prometheus.Collector], as what one collection yields: the metric
    families that are valid and the errors raised for the others. *)
Definition Collector := Scrape -> list MetricFamily * list error.

Definition Registry := list Collector.

Definition NewRegistry : Registry := [].

(** [registry.Register(c)]: the registry afterwards, and the error. *)
Definition Register (reg : Registry) (c : Collector)
  : Registry * option error :=
  match registerError reg c with
  | Some err => (reg, Some err)
  | None => (reg ++ [c], None)
  end.

(** [registry.Gather()]: every collector runs, the valid families are
    kept, the errors are joined. *)
Definition Gather (reg : Registry) (s : Scrape)
  : list MetricFamily * option error :=
  let got := map (fun c : Collector => c s) reg in
  let mfs := concat (map fst got) in
  let errs := concat (map snd got) in
  (mfs, match errs with [] => None | _ => Some (MultiError errs) end).

End Registry.

End prometheus.

Module promhttp.
Import prometheus.

(** [type HandlerErrorHandling int]. *)
Inductive HandlerErrorHandling :=
| HTTPErrorOnError
| ContinueOnError
| PanicOnError.

(** [type HandlerOpts struct], with the two fields the program sets. *)
Record HandlerOpts := mkHandlerOpts {
  ErrorLog : option log.Logger;
  ErrorHandling : HandlerErrorHandling
}.

Section Handler.
Context {P : Client} {C : Type}.
(** the state of the world that a handler's context carries *)
Variable scrapeOf : C -> Scrape.

(** [httpError(rsp, err)]. *)
Definition httpError (rsp : http.ResponseWriter) (err : error)
  : http.ResponseWriter :=
  http.Error_ rsp
    ("An error has occurred while serving metrics:" +:+ LF +:+ LF +:+ Error err)
    http.StatusInternalServerError.

(** The families written one after the other by the encoder. *)
Definition encodeAll (rsp : http.ResponseWriter) (mfs : list MetricFamily)
  : http.ResponseWriter :=
  fold_left (fun w mf => http.Write w (encodeFamily mf)) mfs rsp.

(** [promhttp.HandlerFor(reg, opts)].  A gathering error is handled as
    [opts.ErrorHandling] says: it panics, or it answers with the error,
    or, for [ContinueOnError], it answers with the error only when no
    family at all was gathered and serves what was gathered otherwise. *)
Definition HandlerFor (reg : Registry) (opts : HandlerOpts) : http.Handler C :=
  fun c rsp _ =>
    let '(mfs, err) := Gather reg (scrapeOf c) in
    match err with
    | None => http.Returned (encodeAll rsp mfs)
    | Some err =>
        match ErrorHandling opts with
        | PanicOnError => http.Panicked (Error err)
        | ContinueOnError =>
            match mfs with
            | [] => http.Returned (httpError rsp err)
            | _ => http.Returned (encodeAll rsp mfs)
            end
        | HTTPErrorOnError => http.Returned (httpError rsp err)
        end
    end.

End Handler.

End promhttp.

(** ** Package [main] *)

Module main.
Import config prometheus.

(** The flag variables of [main.go], as they stand after [flag.Parse()]. *)
Record Flags := mkFlags {
  address : string;
  configFile : string;
  device : string;
  insecure : bool;
  logFormat : string;
  logLevel : string;
  metricsPath : string;
  password : string;
  deviceport : string;
  port : string;
  timeout : Z;
  tls : bool;
  user : string;
  ver : bool;
  withBgp : bool;
  withConntrack : bool;
  withRoutes : bool;
  withDHCP : bool;
  withDHCPL : bool;
  withDHCPv6 : bool;
  withFirmware : bool;
  withHealth : bool;
  withPOE : bool;
  withPools : bool;
  withOptics : bool;
  withW60G : bool;
  withWlanSTA : bool;
  withWlanIF : bool;
  withCapsman : bool;
  withMonitor : bool;
  withIpsec : bool;
  withLte : bool;
  withNetwatch : bool
}.

(** The values the flags have when the command line sets none of them. *)
Definition defaultFlags (DefaultTimeout : Z) : Flags :=
  {| address := ""; configFile := ""; device := ""; insecure := false;
     logFormat := "json"; logLevel := "info"; metricsPath := "/metrics";
     password := ""; deviceport := "8728"; port := ":9436";
     timeout := DefaultTimeout; tls := false; user := ""; ver := false;
     withBgp := false; withConntrack := false; withRoutes := false;
     withDHCP := false; withDHCPL := false; withDHCPv6 := false;
     withFirmware := false; withHealth := false; withPOE := false;
     withPools := false; withOptics := false; withW60G := false;
     withWlanSTA := false; withWlanIF := false; withCapsman := false;
     withMonitor := false; withIpsec := false; withLte := false;
     withNetwatch := false |}.

(** [*user = v]. *)
Definition setUser (v : string) (fl : Flags) : Flags :=
  {| address := address fl; configFile := configFile fl; device := device fl;
     insecure := insecure fl; logFormat := logFormat fl;
     logLevel := logLevel fl; metricsPath := metricsPath fl;
     password := password fl; deviceport := deviceport fl; port := port fl;
     timeout := timeout fl; tls := tls fl; user := v; ver := ver fl;
     withBgp := withBgp fl; withConntrack := withConntrack fl;
     withRoutes := withRoutes fl; withDHCP := withDHCP fl;
     withDHCPL := withDHCPL fl; withDHCPv6 := withDHCPv6 fl;
     withFirmware := withFirmware fl; withHealth := withHealth fl;
     withPOE := withPOE fl; withPools := withPools fl;
     withOptics := withOptics fl; withW60G := withW60G fl;
     withWlanSTA := withWlanSTA fl; withWlanIF := withWlanIF fl;
     withCapsman := withCapsman fl; withMonitor := withMonitor fl;
     withIpsec := withIpsec fl; withLte := withLte fl;
     withNetwatch := withNetwatch fl |}.

(** [*password = v]. *)
Definition setPassword (v : string) (fl : Flags) : Flags :=
  {| address := address fl; configFile := configFile fl; device := device fl;
     insecure := insecure fl; logFormat := logFormat fl;
     logLevel := logLevel fl; metricsPath := metricsPath fl;
     password := v; deviceport := deviceport fl; port := port fl;
     timeout := timeout fl; tls := tls fl; user := user fl; ver := ver fl;
     withBgp := withBgp fl; withConntrack := withConntrack fl;
     withRoutes := withRoutes fl; withDHCP := withDHCP fl;
     withDHCPL := withDHCPL fl; withDHCPv6 := withDHCPv6 fl;
     withFirmware := withFirmware fl; withHealth := withHealth fl;
     withPOE := withPOE fl; withPools := withPools fl;
     withOptics := withOptics fl; withW60G := withW60G fl;
     withWlanSTA := withWlanSTA fl; withWlanIF := withWlanIF fl;
     withCapsman := withCapsman fl; withMonitor := withMonitor fl;
     withIpsec := withIpsec fl; withLte := withLte fl;
     withNetwatch := withNetwatch fl |}.

(** What a handler reads when a request arrives: the flag variables and
    the state of the world. *)
Record Ambient {P : Client} := mkAmbient {
  globals : Flags;
  world : Scrape
}.
Arguments Ambient P : clear implicits.
Arguments mkAmbient {P} globals world.

(** What the program takes from outside [main.go] and [config]. *)
Class Runtime {P : Client} := {
  (** the package variable [version], set when the binary is linked *)
  version : string;
  (** [collector.DefaultTimeout] *)
  DefaultTimeout : Z;
  (** [log.ParseLevel] *)
  ParseLevel : string -> log.Level * option error;
  (** [collector.NewCollector(cfg, opts...)] *)
  NewCollector :
    option Config -> list collector.Option -> option Collector * option error;
  (** the error [srv.ListenAndServe()] returns with, once it returns *)
  ListenAndServe : http.Server (Ambient P) -> option error
}.

(** What the process does that can be seen from outside, in order. *)
Inductive Event {P : Client} :=
| EvPrintf (text : string)
| EvLog (lvl : log.Level) (err : option error) (msg : string)
| EvGetenv (key : string)
| EvReadFile (name : string)
| EvNewCollector (cfg : option Config) (opts : list collector.Option)
| EvListenAndServe (srv : http.Server (Ambient P)).
Arguments Event P : clear implicits.

(** The state the program runs in: its package variables, the standard
    logger, the process environment and the file system it reads, and the
    trace of what it has done. *)
Record State {P : Client} := mkState {
  flags : Flags;
  cfg : option Config;
  logger : log.Logger;
  environ : string -> string;
  files : string -> list byte * option error;
  trace : list (Event P)
}.
Arguments State P : clear implicits.
Arguments mkState {P} flags cfg logger environ files trace.

(** How a function of the program ends: it returns, the process exits,
    or it panics. *)
Inductive Outcome (A : Type) :=
| Ret (a : A)
| Exit (code : Z)
| Panic (v : string).
Arguments Ret {A} a.
Arguments Exit {A} code.
Arguments Panic {A} v.

Section Program.
Context {Y : Yaml} {P : Client} {R : Runtime}.

Definition M (A : Type) : Type := State P -> Outcome A * State P.

Definition ret {A} (a : A) : M A := fun s => (Ret a, s).

Definition bind {A B} (c : M A) (k : A -> M B) : M B :=
  fun s =>
    match c s with
    | (Ret a, s') => k a s'
    | (Exit code, s') => (Exit code, s')
    | (Panic v, s') => (Panic v, s')
    end.

Notation "x <- c ;; k" := (bind c (fun x => k))
  (at level 100, c at next level, right associativity).
Notation "c ;; k" := (bind c (fun _ => k))
  (at level 100, right associativity).

Definition get {A} (f : State P -> A) : M A := fun s => (Ret (f s), s).

Definition emit (e : Event P) : M unit :=
  fun s => (Ret tt, mkState (flags s) (cfg s) (logger s) (environ s)
                            (files s) (trace s ++ [e])).

Definition setFlags (f : Flags -> Flags) : M unit :=
  fun s => (Ret tt, mkState (f (flags s)) (cfg s) (logger s) (environ s)
                            (files s) (trace s)).

Definition setCfg (c : option Config) : M unit :=
  fun s => (Ret tt, mkState (flags s) c (logger s) (environ s)
                            (files s) (trace s)).

Definition setLogger (f : log.Logger -> log.Logger) : M unit :=
  fun s => (Ret tt, mkState (flags s) (cfg s) (f (logger s)) (environ s)
                            (files s) (trace s)).

(** [panic(v)]. *)
Definition panic {A} (v : string) : M A := fun s => (Panic v, s).

(** [os.Exit(code)]. *)
Definition os_Exit {A} (code : Z) : M A := fun s => (Exit code, s).

(** [os.Getenv(key)]: the empty string when the variable is not set. *)
Definition os_Getenv (key : string) : M string :=
  emit (EvGetenv key) ;;
  env <- get environ ;;
  ret (env key).

(** [os.ReadFile(name)]. *)
Definition os_ReadFile (name : string) : M (list byte * option error) :=
  emit (EvReadFile name) ;;
  fs <- get files ;;
  ret (fs name).

(** [fmt.Printf], with the text already formatted. *)
Definition fmt_Printf (text : string) : M unit := emit (EvPrintf text).

(** [fmt.Errorf], with the text already formatted. *)
Definition fmt_Errorf (text : string) : error := errorString text.

(** [entry.Log(lvl, msg)] on the standard logger: the entry is written
    only when the logger's level enables [lvl]. *)
Definition entry_Log (lvl : log.Level) (err : option error) (msg : string)
  : M unit :=
  std <- get logger ;;
  if log.IsLevelEnabled std lvl then emit (EvLog lvl err msg) else ret tt.

(** [log.Errorf] and [log.Infof], with the text already formatted. *)
Definition log_Errorf (msg : string) : M unit :=
  entry_Log log.ErrorLevel None msg.

Definition log_Infof (msg : string) : M unit :=
  entry_Log log.InfoLevel None msg.

(** [log.WithError(err).Fatal(msg)]: the entry, when the fatal level is
    enabled, then [logger.Exit(1)] in either case. *)
Definition log_WithError_Fatal {A} (err : error) (msg : string) : M A :=
  entry_Log log.FatalLevel (Some err) msg ;;
  os_Exit 1.

Definition log_SetLevel (ll : log.Level) : M unit :=
  setLogger (fun l => log.mkLogger ll (log.formatter l)).

Definition log_SetFormatter (f : log.Formatter) : M unit :=
  setLogger (fun l => log.mkLogger (log.level l) f).

(** [func configureLog()]. *)
Definition configureLog : M unit :=
  lvl <- get (fun s => logLevel (flags s)) ;;
  let '(ll, err) := ParseLevel lvl in
  match err with
  | Some err => panic (Error err)
  | None =>
      log_SetLevel ll ;;
      fmt <- get (fun s => logFormat (flags s)) ;;
      if decide (fmt = "text")
      then log_SetFormatter log.TextFormatter
      else log_SetFormatter log.JSONFormatter
  end.

(** [func loadConfigFromFile()]. *)
Definition loadConfigFromFile : M (option Config * option error) :=
  name <- get (fun s => configFile (flags s)) ;;
  r <- os_ReadFile name ;;
  let '(b, err) := r in
  match err with
  | Some err => ret (None, Some err)
  | None => ret (Load b)
  end.

(** [func loadConfigFromFlags()]. *)
Definition loadConfigFromFlags : M (option Config * option error) :=
  u <- get (fun s => user (flags s)) ;;
  (if decide (u = "")
   then v <- os_Getenv "MIKROTIK_USER" ;; setFlags (setUser v)
   else ret tt) ;;
  p <- get (fun s => password (flags s)) ;;
  (if decide (p = "")
   then v <- os_Getenv "MIKROTIK_PASSWORD" ;; setFlags (setPassword v)
   else ret tt) ;;
  fl <- get flags ;;
  if bool_decide (device fl = "") || bool_decide (address fl = "")
     || bool_decide (user fl = "") || bool_decide (password fl = "")
  then
    ret (None,
         Some (fmt_Errorf "missing required param for single device configuration"))
  else
    ret (Some {| Devices := [ {| Name := device fl;
                                 Address := address fl;
                                 Srv := zeroSrvRecord;
                                 User := user fl;
                                 Password := password fl;
                                 Port := deviceport fl |} ];
                 Features_ := zeroFeatures |},
         None).

(** [func loadConfig()]. *)
Definition loadConfig : M (option Config * option error) :=
  name <- get (fun s => configFile (flags s)) ;;
  if decide (name <> "") then loadConfigFromFile else loadConfigFromFlags.

(** The value of the panic that the runtime raises when a nil pointer is
    dereferenced, as its [Error()] reads. *)
Definition nilDereference : string :=
  "runtime error: invalid memory address or nil pointer dereference".

(** [*flag || cfg.Features.X], as Go evaluates it: the flag is read
    first, and [cfg] is dereferenced only when the flag is false. *)
Definition enabled (flag : Flags -> bool) (toggle : Features -> bool)
  : M bool :=
  f <- get (fun s => flag (flags s)) ;;
  if f then ret true
  else
    c <- get cfg ;;
    match c with
    | None => panic nilDereference
    | Some c => ret (toggle (Features_ c))
    end.

(** [if b { opts = append(opts, o) }]. *)
Definition appendIf (b : bool) (opts : list collector.Option)
  (o : collector.Option) : list collector.Option :=
  if b then opts ++ [o] else opts.

(** [func collectorOptions() []collector.Option]. *)
Definition collectorOptions : M (list collector.Option) :=
  let opts := [] in
  b <- enabled withBgp BGP ;;
  let opts := appendIf b opts collector.WithBGP in
  b <- enabled withRoutes Routes ;;
  let opts := appendIf b opts collector.WithRoutes in
  b <- enabled withDHCP DHCP ;;
  let opts := appendIf b opts collector.WithDHCP in
  b <- enabled withDHCPL DHCPL ;;
  let opts := appendIf b opts collector.WithDHCPL in
  b <- enabled withDHCPv6 DHCPv6 ;;
  let opts := appendIf b opts collector.WithDHCPv6 in
  b <- enabled withFirmware Firmware ;;
  let opts := appendIf b opts collector.WithFirmware in
  b <- enabled withHealth Health ;;
  let opts := appendIf b opts collector.WithHealth in
  b <- enabled withPOE POE ;;
  let opts := appendIf b opts collector.WithPOE in
  b <- enabled withPools Pools ;;
  let opts := appendIf b opts collector.WithPools in
  b <- enabled withOptics Optics ;;
  let opts := appendIf b opts collector.WithOptics in
  b <- enabled withW60G W60G ;;
  let opts := appendIf b opts collector.WithW60G in
  b <- enabled withWlanSTA WlanSTA ;;
  let opts := appendIf b opts collector.WithWlanSTA in
  b <- enabled withCapsman Capsman ;;
  let opts := appendIf b opts collector.WithCapsman in
  b <- enabled withWlanIF WlanIF ;;
  let opts := appendIf b opts collector.WithWlanIF in
  b <- enabled withMonitor Monitor ;;
  let opts := appendIf b opts collector.Monitor in
  b <- enabled withIpsec Ipsec ;;
  let opts := appendIf b opts collector.WithIpsec in
  b <- enabled withConntrack Conntrack ;;
  let opts := appendIf b opts collector.WithConntrack in
  b <- enabled withLte Lte ;;
  let opts := appendIf b opts collector.WithLte in
  b <- enabled withNetwatch Netwatch ;;
  let opts := appendIf b opts collector.WithNetwatch in
  t <- get (fun s => timeout (flags s)) ;;
  let opts := appendIf (bool_decide (t <> DefaultTimeout)) opts
                       (collector.WithTimeout t) in
  b <- get (fun s => tls (flags s)) ;;
  if b then
    i <- get (fun s => insecure (flags s)) ;;
    ret (opts ++ [collector.WithTLS i])
  else ret opts.

(** [func createMetricsHandler() (http.Handler, error)].  The call
    [promhttp.Handler()] of the source builds a handler for the default
    registry and drops it; it leaves nothing behind in this model. *)
Definition createMetricsHandler
  : M (option (http.Handler (Ambient P)) * option error) :=
  opts <- collectorOptions ;;
  c <- get cfg ;;
  emit (EvNewCollector c opts) ;;
  let '(nc, err) := NewCollector c opts in
  match err with
  | Some err => ret (None, Some err)
  | None =>
      let registry := NewRegistry in
      let '(registry, err) := Register registry NewGoCollector in
      match err with
      | Some err => ret (None, Some err)
      | None =>
          match nc with
          | None => panic nilDereference
          | Some nc =>
              let '(registry, err) := Register registry nc in
              match err with
              | Some err => ret (None, Some err)
              | None =>
                  ret (Some (promhttp.HandlerFor world registry
                               {| promhttp.ErrorLog := Some log.New;
                                  promhttp.ErrorHandling :=
                                    promhttp.ContinueOnError |}),
                       None)
              end
          end
      end
  end.

(** A panic of a library call becomes a panic of the program. *)
Definition orPanic {A} (r : A + string) : M A :=
  match r with
  | inl a => ret a
  | inr v => panic v
  end.

(** The function registered for [/healthz]. *)
Definition healthz : http.Handler (Ambient P) :=
  fun _ w _ => http.Returned (http.Write w (String.list_byte_of_string "ok")).

Definition TAB : string := String (Ascii.ascii_of_nat 9) EmptyString.
Definition QUOTE : string := String (Ascii.ascii_of_nat 34) EmptyString.

(** The function registered for [/]; it reads [*metricsPath] when it is
    called. *)
Definition index : http.Handler (Ambient P) :=
  fun c w _ =>
    let indent := LF +:+ TAB +:+ TAB +:+ TAB in
    http.Returned (http.Write w (String.list_byte_of_string (
      "<html>"
      +:+ indent +:+ "<head><title>Mikrotik Exporter</title></head>"
      +:+ indent +:+ "<body>"
      +:+ indent +:+ "<h1>Mikrotik Exporter</h1>"
      +:+ indent +:+ "<p><a href=" +:+ QUOTE +:+ metricsPath (globals c)
      +:+ QUOTE +:+ ">Metrics</a></p>"
      +:+ indent +:+ "</body>"
      +:+ indent +:+ "</html>"))).

(** [func newServer()], which returns a [*http.Server] and an [error]. *)
Definition newServer : M (option (http.Server (Ambient P)) * option error) :=
  r <- createMetricsHandler ;;
  let '(metricsHandler, err) := r in
  match err with
  | Some err => ret (None, Some err)
  | None =>
      let mux := http.NewServeMux in
      pat <- get (fun s => metricsPath (flags s)) ;;
      mux <- orPanic (http.Handle mux pat metricsHandler) ;;
      mux <- orPanic (http.HandleFunc mux "/healthz" (Some healthz)) ;;
      mux <- orPanic (http.HandleFunc mux "/" (Some index)) ;;
      addr <- get (fun s => port (flags s)) ;;
      ret (Some {| http.Addr := addr; http.Server_Handler := mux |}, None)
  end.

(** [srv.ListenAndServe()], from the call to the error it returns with;
    a nil [srv] is dereferenced by the call. *)
Definition srv_ListenAndServe (srv : option (http.Server (Ambient P)))
  : M (option error) :=
  match srv with
  | None => panic nilDereference
  | Some srv =>
      emit (EvListenAndServe srv) ;;
      ret (ListenAndServe srv)
  end.

(** [func main()], after [flag.Parse()]. *)
Definition main : M unit :=
  v <- get (fun s => ver (flags s)) ;;
  (if v
   then fmt_Printf ("Version: " +:+ version +:+ LF) ;; os_Exit 0
   else ret tt) ;;
  configureLog ;;
  r <- loadConfig ;;
  let '(c, err) := r in
  match err with
  | Some err =>
      log_Errorf ("Could not load config: " +:+ Error err) ;;
      os_Exit 3
  | None =>
      setCfg c ;;
      r <- newServer ;;
      let '(srv, err) := r in
      match err with
      | Some err => log_WithError_Fatal err "Could not create server"
      | None =>
          addr <- get (fun s => port (flags s)) ;;
          log_Infof ("Starting server on " +:+ addr) ;;
          err <- srv_ListenAndServe srv ;;
          match err with
          | Some err =>
              if decide (err <> http.ErrServerClosed)
              then log_WithError_Fatal err "Failed to start server"
              else ret tt
          | None => ret tt
          end
      end
  end.

End Program.

End main.

(** ** Stand-ins for the outside world

    Small instances of the classes above, on which the program can be run:
    a YAML library that knows a handful of documents, a Prometheus client
    whose metric families are strings, a runtime whose collector reports
    one family and one error per scrape. *)

Module fixture.
Import config prometheus main.

Definition bytes (s : string) : list byte := String.list_byte_of_string s.

(** Nodes of documents that fit on one line and carry no tags. *)
Definition ystr (s : string) : node := scalarNode 0 "" s true.
Definition ynull : node := scalarNode 0 "" "" true.
Definition yseq (items : list node) : node := sequenceNode 0 "" items.
Definition ymap (pairs : list (node * node)) : node := mappingNode 0 "" pairs.
Definition ydoc (n : node) : node := documentNode 0 [n].

Definition device1 : node :=
  ymap [ (ystr "name", ystr "router"); (ystr "address", ystr "10.0.0.1");
         (ystr "user", ystr "prometheus"); (ystr "password", ystr "secret") ].

(** The documents this library can parse. *)
Definition yparse (data : list byte) : error + option node :=
  let text := String.string_of_list_byte data in
  if decide (text = "") then inr None
  else if decide (text = "{}") then inr (Some (ydoc (ymap [])))
  else if decide (text = "~") then inr (Some (ydoc (ystr "~")))
  else if decide (text = "interval: 30s") then
    inr (Some (ydoc (ymap [(ystr "interval", ystr "30s")])))
  else if decide (text = "features: {bgp: true}") then
    inr (Some (ydoc (ymap [(ystr "features", ymap [(ystr "bgp", ystr "true")])])))
  else if decide (text = "<<: {features: {bgp: true}}") then
    inr (Some (ydoc (ymap [(ystr "<<",
                      ymap [(ystr "features", ymap [(ystr "bgp", ystr "true")])])])))
  else if decide (text = "devices: [{name: router, address: 10.0.0.1, user: prometheus, password: secret}]") then
    inr (Some (ydoc (ymap [(ystr "devices", yseq [device1])])))
  else if decide (text = "hello") then inr (Some (ydoc (ystr "hello")))
  else inl (errorString "yaml: did not find expected node content").

(** A plain scalar is null when it is empty, [~] or [null], and a string
    otherwise. *)
Definition yresolve (n : node) : string + (string * bool) :=
  match n with
  | scalarNode _ _ value _ =>
      if decide (value = "") then inr ("tag:yaml.org,2002:null", true)
      else if decide (value = "~") then inr ("tag:yaml.org,2002:null", true)
      else if decide (value = "null") then inr ("tag:yaml.org,2002:null", true)
      else inr ("tag:yaml.org,2002:str", false)
  | _ => inr ("", false)
  end.

Definition shortTag (tag : string) : string :=
  if decide (tag = "tag:yaml.org,2002:str") then "!!str"
  else if decide (tag = "tag:yaml.org,2002:seq") then "!!seq"
  else if decide (tag = "tag:yaml.org,2002:map") then "!!map"
  else tag.

(** The message of a type error, for a node of the first line. *)
Definition ytypeError (n : node) (tag type : string) : string :=
  "line 1: cannot unmarshal " +:+ shortTag tag
  +:+ match n with
      | scalarNode _ _ value _ => " `" +:+ value +:+ "`"
      | _ => ""
      end
  +:+ " into " +:+ type.

(** The decoder after one more node. *)
Definition visit (d : decoder) : decoder :=
  mkDecoder (terrors d) (decodeCount d + 1)
    (if (0 <? aliasDepth d)%Z then aliasCount d + 1 else aliasCount d)
    (aliasDepth d).

Definition mistyped (d : decoder) (n : node) (tag type : string) : decoder :=
  mkDecoder (terrors d ++ [ytypeError n tag type]) (decodeCount d)
            (aliasCount d) (aliasDepth d).

Definition ykey (n : node) (d : decoder) : Step (option string) :=
  match n with
  | scalarNode _ _ value _ => (None, Some value, visit d)
  | sequenceNode _ _ _ =>
      (None, None, mistyped (visit d) n "tag:yaml.org,2002:seq" "string")
  | _ => (None, None, mistyped (visit d) n "tag:yaml.org,2002:map" "string")
  end.

Definition isKey (key : string) (n : node) : bool :=
  match n with
  | scalarNode _ _ value _ => bool_decide (value = key)
  | _ => false
  end.

Definition lookupStr (key : string) (pairs : list (node * node)) (old : string)
  : string :=
  match find (fun kv => isKey key kv.1) pairs with
  | Some (_, scalarNode _ _ value _) => value
  | _ => old
  end.

Definition ydevice (n : node) : option Device :=
  match n with
  | mappingNode _ _ pairs =>
      Some {| Name := lookupStr "name" pairs "";
              Address := lookupStr "address" pairs "";
              Srv := zeroSrvRecord;
              User := lookupStr "user" pairs "";
              Password := lookupStr "password" pairs "";
              Port := lookupStr "port" pairs "" |}
  | _ => None
  end.

Definition ydevices (n : node) (old : list Device) (d : decoder)
  : Step (list Device) :=
  match n with
  | sequenceNode _ _ items => (None, omap ydevice items, visit d)
  | scalarNode _ _ value _ =>
      if decide (value = "") then (None, [], visit d)
      else (None, old,
            mistyped (visit d) n "tag:yaml.org,2002:str" "[]config.Device")
  | _ => (None, old,
          mistyped (visit d) n "tag:yaml.org,2002:map" "[]config.Device")
  end.

Definition yfeatures (n : node) (old : Features) (d : decoder)
  : Step Features :=
  match n with
  | mappingNode _ _ pairs =>
      if decide (lookupStr "bgp" pairs "" = "true")
      then (None,
            mkFeatures true (Conntrack old) (DHCP old) (DHCPL old)
              (DHCPv6 old) (Firmware old) (Health old) (Routes old)
              (POE old) (Pools old) (Optics old) (W60G old) (WlanSTA old)
              (Capsman old) (WlanIF old) (Monitor old) (Ipsec old)
              (Lte old) (Netwatch old),
            visit d)
      else (None, old, visit d)
  | scalarNode _ _ value _ =>
      if decide (value = "") then (None, zeroFeatures, visit d)
      else (None, old,
            mistyped (visit d) n "tag:yaml.org,2002:str" "config.Features")
  | _ => (None, old,
          mistyped (visit d) n "tag:yaml.org,2002:seq" "config.Features")
  end.

Definition yaml : Yaml :=
  {| parse := yparse;
     resolveScalar := yresolve;
     unmarshalString := ykey;
     unmarshalDevices := ydevices;
     unmarshalFeatures := yfeatures;
     typeError := ytypeError;
     aliasRatioExceeded := fun _ _ => false |}.

(** A Prometheus client whose metric families are lines of text.  The
    state of the world says whether the devices can be reached. *)
Definition client : Client :=
  {| Scrape := bool;
     MetricFamily := string;
     encodeFamily := fun mf => bytes (mf +:+ LF);
     MultiError := fun errs => errorString (String.concat "; " (map Error errs));
     NewGoCollector := fun _ => (["go_goroutines 7"], []);
     registerError := fun _ _ => None |}.

(** A collector that reports the state of its devices, and an error for
    the scrape when they cannot be reached. *)
Definition deviceCollector : Collector (P := client) :=
  fun reachable : bool =>
    if reachable
    then (["mikrotik_scrape_collector_success 1"], [])
    else (["mikrotik_scrape_collector_success 0"],
          [errorString "dial tcp 10.0.0.1:8728: connect: connection refused"]).

Definition parseLevel (lvl : string) : log.Level * option error :=
  if decide (lvl = "panic") then (log.PanicLevel, None)
  else if decide (lvl = "fatal") then (log.FatalLevel, None)
  else if decide (lvl = "error") then (log.ErrorLevel, None)
  else if decide (lvl = "warn") then (log.WarnLevel, None)
  else if decide (lvl = "warning") then (log.WarnLevel, None)
  else if decide (lvl = "info") then (log.InfoLevel, None)
  else if decide (lvl = "debug") then (log.DebugLevel, None)
  else if decide (lvl = "trace") then (log.TraceLevel, None)
  else (log.PanicLevel,
        Some (errorString ("not a valid logrus Level: "
                           +:+ QUOTE +:+ lvl +:+ QUOTE))).

(** Five seconds, in nanoseconds. *)
Definition fiveSeconds : Z := 5000000000.

Definition runtime : Runtime (P := client) :=
  {| version := "1.0.0";
     DefaultTimeout := fiveSeconds;
     ParseLevel := parseLevel;
     NewCollector := fun cfg _ =>
       match cfg with
       | Some _ => (Some deviceCollector, None)
       | None => (None, Some (errorString "no configuration"))
       end;
     ListenAndServe := fun _ => Some http.ErrServerClosed |}.

(** A command line: the flags it sets, the others at their defaults. *)
Definition cli (dev addr usr pass file path : string) (useTLS skipVerify bgpOn : bool)
  (t : Z) : Flags :=
  {| address := addr; configFile := file; device := dev;
     insecure := skipVerify; logFormat := "json"; logLevel := "info";
     metricsPath := path; password := pass; deviceport := "8728";
     port := ":9436"; timeout := t; tls := useTLS; user := usr; ver := false;
     withBgp := bgpOn; withConntrack := false; withRoutes := false;
     withDHCP := false; withDHCPL := false; withDHCPv6 := false;
     withFirmware := false; withHealth := false; withPOE := false;
     withPools := false; withOptics := false; withW60G := false;
     withWlanSTA := false; withWlanIF := false; withCapsman := false;
     withMonitor := false; withIpsec := false; withLte := false;
     withNetwatch := false |}.

(** [-device router -address 10.0.0.1 -with-bgp], credentials left to the
    environment. *)
Definition singleRouter : Flags :=
  cli "router" "10.0.0.1" "" "" "" "/metrics" false false true fiveSeconds.

(** [-address 10.0.0.1] with no [-device]. *)
Definition noDevice : Flags :=
  cli "" "10.0.0.1" "" "" "" "/metrics" false false false fiveSeconds.

(** [-config-file broken.yml]. *)
Definition brokenFile : Flags :=
  cli "" "" "" "" "broken.yml" "/metrics" false false false fiveSeconds.

(** [-config-file config.yml -tls -insecure -timeout 10s]. *)
Definition fromFile : Flags :=
  cli "" "" "" "" "config.yml" "/metrics" true true false 10000000000.

(** [-device router -address 10.0.0.1 -path example.com/healthz]. *)
Definition hostPattern : Flags :=
  cli "router" "10.0.0.1" "" "" "" "example.com/healthz" false false false
      fiveSeconds.

(** [-device router -address 10.0.0.1 -path /healthz]. *)
Definition healthzPath : Flags :=
  cli "router" "10.0.0.1" "" "" "" "/healthz" false false false fiveSeconds.

(** The process environment. *)
Definition environment (key : string) : string :=
  if decide (key = "MIKROTIK_USER") then "prometheus"
  else if decide (key = "MIKROTIK_PASSWORD") then "secret"
  else "".

(** The files that can be read. *)
Definition disk (name : string) : list byte * option error :=
  if decide (name = "config.yml") then (bytes "features: {bgp: true}", None)
  else if decide (name = "broken.yml") then (bytes "hello", None)
  else ([], Some (errorString ("open " +:+ name +:+ ": no such file or directory"))).

(** A process started with the given flags, before [main] runs. *)
Definition start (fl : Flags) : State client :=
  {| flags := fl;
     cfg := None;
     logger := log.New;
     environ := environment;
     files := disk;
     trace := [] |}.

(** The same process once [main] has stored the configuration [c]. *)
Definition loaded (fl : Flags) (c : Config) : State client :=
  {| flags := fl;
     cfg := Some c;
     logger := log.New;
     environ := environment;
     files := disk;
     trace := [] |}.

Definition oneDevice : Config :=
  {| Devices := [ {| Name := "router"; Address := "10.0.0.1";
                     Srv := zeroSrvRecord; User := "prometheus";
                     Password := "secret"; Port := "8728" |} ];
     Features_ := zeroFeatures |}.

(** [host:port] split at the first colon, for hosts that are names. *)
Fixpoint splitColon (hostport : string) : option (string * string) :=
  match hostport with
  | EmptyString => None
  | String c rest =>
      if Ascii.eqb c (Ascii.ascii_of_nat 58) then Some ("", rest)
      else match splitColon rest with
           | Some (host, port) => Some (String c host, port)
           | None => None
           end
  end.

(** The rest of net/http, for paths and queries that need no escaping;
    a redirect is kept as its status and its [Location] header. *)
Definition net : http.Net :=
  {| http.SplitHostPort := splitColon;
     http.URL_String := fun path query =>
       if decide (query = "") then path else path +:+ "?" +:+ query;
     http.Redirect := fun w _ url code =>
       http.WriteHeader
         (http.mkResponseWriter (http.status w) (Some url) (http.body w))
         code |}.

(** A request for [path] on [host], with no query and no escapes. *)
Definition request (method host path : string) : http.Request :=
  http.mkRequest method host path "" "" "".

(** The server [newServer] returns in state [s]. *)
Definition serverOf (s : State client) : http.Server (Ambient client) :=
  match newServer (R := runtime) s with
  | (Ret (Some srv, None), _) => srv
  | _ => http.mkServer "" http.NewServeMux
  end.

(** The handler [createMetricsHandler] returns in state [s]. *)
Definition metricsHandlerOf (s : State client) : http.Handler (Ambient client) :=
  match createMetricsHandler (R := runtime) s with
  | (Ret (Some hdl, None), _) => hdl
  | _ => http.NotFoundHandler
  end.

(** [-device router -address 10.0.0.1 -log-level verbose]. *)
Definition badLevel : Flags :=
  {| address := "10.0.0.1"; configFile := ""; device := "router";
     insecure := false; logFormat := "json"; logLevel := "verbose";
     metricsPath := "/metrics"; password := ""; deviceport := "8728";
     port := ":9436"; timeout := fiveSeconds; tls := false; user := "";
     ver := false;
     withBgp := false; withConntrack := false; withRoutes := false;
     withDHCP := false; withDHCPL := false; withDHCPv6 := false;
     withFirmware := false; withHealth := false; withPOE := false;
     withPools := false; withOptics := false; withW60G := false;
     withWlanSTA := false; withWlanIF := false; withCapsman := false;
     withMonitor := false; withIpsec := false; withLte := false;
     withNetwatch := false |}.

(** [fl] with [-log-level lvl]. *)
Definition atLevel (lvl : string) (fl : Flags) : Flags :=
  {| address := address fl; configFile := configFile fl; device := device fl;
     insecure := insecure fl; logFormat := logFormat fl;
     logLevel := lvl; metricsPath := metricsPath fl;
     password := password fl; deviceport := deviceport fl; port := port fl;
     timeout := timeout fl; tls := tls fl; user := user fl; ver := ver fl;
     withBgp := withBgp fl; withConntrack := withConntrack fl;
     withRoutes := withRoutes fl; withDHCP := withDHCP fl;
     withDHCPL := withDHCPL fl; withDHCPv6 := withDHCPv6 fl;
     withFirmware := withFirmware fl; withHealth := withHealth fl;
     withPOE := withPOE fl; withPools := withPools fl;
     withOptics := withOptics fl; withW60G := withW60G fl;
     withWlanSTA := withWlanSTA fl; withWlanIF := withWlanIF fl;
     withCapsman := withCapsman fl; withMonitor := withMonitor fl;
     withIpsec := withIpsec fl; withLte := withLte fl;
     withNetwatch := withNetwatch fl |}.

(** [-device router -address 10.0.0.1 -user admin -password hunter2]. *)
Definition withCredentials : Flags :=
  cli "router" "10.0.0.1" "admin" "hunter2" "" "/metrics" false false false
      fiveSeconds.

(** A runtime whose collector cannot be built. *)
Definition runtimeDown : Runtime (P := client) :=
  {| version := "1.0.0";
     DefaultTimeout := fiveSeconds;
     ParseLevel := parseLevel;
     NewCollector := fun _ _ => (None, Some (errorString "no devices"));
     ListenAndServe := fun _ => Some http.ErrServerClosed |}.

(** A runtime on which the port is taken. *)
Definition runtimeBusy : Runtime (P := client) :=
  {| version := "1.0.0";
     DefaultTimeout := fiveSeconds;
     ParseLevel := parseLevel;
     NewCollector := fun cfg _ =>
       match cfg with
       | Some _ => (Some deviceCollector, None)
       | None => (None, Some (errorString "no configuration"))
       end;
     ListenAndServe := fun _ =>
       Some (errorString "listen tcp :9436: bind: address already in use") |}.

(** The server [newServer] returns in state [s] on the runtime [R]. *)
Definition serverOn (R : Runtime (P := client)) (s : State client)
  : http.Server (Ambient client) :=
  match newServer (R := R) s with
  | (Ret (Some srv, None), _) => srv
  | _ => http.mkServer "" http.NewServeMux
  end.

End fixture.

(** ** Vocabulary of the statements *)

Module spec.
Import config prometheus main.

Section Documents.
Context {Y : Yaml}.





End Documents.

(** The feature domains, named as their yaml keys. *)
Inductive Feature :=
| bgp | conntrack | routes | dhcp | dhcpl | dhcpv6 | firmware | health
| poe | pools | optics | w60g | wlansta | capsman | wlanif | monitor
| ipsec | lte | netwatch.

(** The command-line flag of a domain. *)
Definition cliFlag (F : Feature) : Flags -> bool :=
  match F with
  | bgp => withBgp | conntrack => withConntrack | routes => withRoutes
  | dhcp => withDHCP | dhcpl => withDHCPL | dhcpv6 => withDHCPv6
  | firmware => withFirmware | health => withHealth | poe => withPOE
  | pools => withPools | optics => withOptics | w60g => withW60G
  | wlansta => withWlanSTA | capsman => withCapsman | wlanif => withWlanIF
  | monitor => withMonitor | ipsec => withIpsec | lte => withLte
  | netwatch => withNetwatch
  end.

(** The configuration-file toggle of a domain. *)
Definition toggle (F : Feature) : Features -> bool :=
  match F with
  | bgp => BGP | conntrack => Conntrack | routes => Routes
  | dhcp => DHCP | dhcpl => DHCPL | dhcpv6 => DHCPv6
  | firmware => Firmware | health => Health | poe => POE
  | pools => Pools | optics => Optics | w60g => W60G
  | wlansta => WlanSTA | capsman => Capsman | wlanif => WlanIF
  | monitor => Monitor | ipsec => Ipsec | lte => Lte
  | netwatch => Netwatch
  end.

(** The collector option that enables a domain. *)
Definition optionFor (F : Feature) : collector.Option :=
  match F with
  | bgp => collector.WithBGP | conntrack => collector.WithConntrack
  | routes => collector.WithRoutes | dhcp => collector.WithDHCP
  | dhcpl => collector.WithDHCPL | dhcpv6 => collector.WithDHCPv6
  | firmware => collector.WithFirmware | health => collector.WithHealth
  | poe => collector.WithPOE | pools => collector.WithPools
  | optics => collector.WithOptics | w60g => collector.WithW60G
  | wlansta => collector.WithWlanSTA | capsman => collector.WithCapsman
  | wlanif => collector.WithWlanIF | monitor => collector.Monitor
  | ipsec => collector.WithIpsec | lte => collector.WithLte
  | netwatch => collector.WithNetwatch
  end.

(** The flags [fl] with [-insecure] set to [i]. *)
Definition setInsecure (i : bool) (fl : Flags) : Flags :=
  {| address := address fl; configFile := configFile fl; device := device fl;
     insecure := i; logFormat := logFormat fl;
     logLevel := logLevel fl; metricsPath := metricsPath fl;
     password := password fl; deviceport := deviceport fl; port := port fl;
     timeout := timeout fl; tls := tls fl; user := user fl; ver := ver fl;
     withBgp := withBgp fl; withConntrack := withConntrack fl;
     withRoutes := withRoutes fl; withDHCP := withDHCP fl;
     withDHCPL := withDHCPL fl; withDHCPv6 := withDHCPv6 fl;
     withFirmware := withFirmware fl; withHealth := withHealth fl;
     withPOE := withPOE fl; withPools := withPools fl;
     withOptics := withOptics fl; withW60G := withW60G fl;
     withWlanSTA := withWlanSTA fl; withWlanIF := withWlanIF fl;
     withCapsman := withCapsman fl; withMonitor := withMonitor fl;
     withIpsec := withIpsec fl; withLte := withLte fl;
     withNetwatch := withNetwatch fl |}.

(** The option list [collectorOptions] builds, written as one
    expression over the flags and the configuration. *)
Definition optionsOf (DefaultTimeout : Z) (fl : Flags) (c : Config)
  : list collector.Option :=
  let fs := Features_ c in
  let opts := [] in
  let opts := appendIf (withBgp fl || BGP fs) opts collector.WithBGP in
  let opts := appendIf (withRoutes fl || Routes fs) opts collector.WithRoutes in
  let opts := appendIf (withDHCP fl || DHCP fs) opts collector.WithDHCP in
  let opts := appendIf (withDHCPL fl || DHCPL fs) opts collector.WithDHCPL in
  let opts := appendIf (withDHCPv6 fl || DHCPv6 fs) opts collector.WithDHCPv6 in
  let opts := appendIf (withFirmware fl || Firmware fs) opts collector.WithFirmware in
  let opts := appendIf (withHealth fl || Health fs) opts collector.WithHealth in
  let opts := appendIf (withPOE fl || POE fs) opts collector.WithPOE in
  let opts := appendIf (withPools fl || Pools fs) opts collector.WithPools in
  let opts := appendIf (withOptics fl || Optics fs) opts collector.WithOptics in
  let opts := appendIf (withW60G fl || W60G fs) opts collector.WithW60G in
  let opts := appendIf (withWlanSTA fl || WlanSTA fs) opts collector.WithWlanSTA in
  let opts := appendIf (withCapsman fl || Capsman fs) opts collector.WithCapsman in
  let opts := appendIf (withWlanIF fl || WlanIF fs) opts collector.WithWlanIF in
  let opts := appendIf (withMonitor fl || Monitor fs) opts collector.Monitor in
  let opts := appendIf (withIpsec fl || Ipsec fs) opts collector.WithIpsec in
  let opts := appendIf (withConntrack fl || Conntrack fs) opts collector.WithConntrack in
  let opts := appendIf (withLte fl || Lte fs) opts collector.WithLte in
  let opts := appendIf (withNetwatch fl || Netwatch fs) opts collector.WithNetwatch in
  let opts := appendIf (bool_decide (timeout fl <> DefaultTimeout)) opts
                       (collector.WithTimeout (timeout fl)) in
  appendIf (tls fl) opts (collector.WithTLS (insecure fl)).

(** The state [s] with its flag variables replaced by [fl]. *)
Definition withFlags {P : Client} (fl : Flags) (s : State P) : State P :=
  mkState fl (cfg s) (logger s) (environ s) (files s) (trace s).

(** The state [s] with the events [evs] added to its trace. *)
Definition appendTrace {P : Client} (evs : list (Event P)) (s : State P)
  : State P :=
  mkState (flags s) (cfg s) (logger s) (environ s) (files s) (trace s ++ evs).

(** The events of [createMetricsHandler] and of the running server. *)
Definition serverEvent {P : Client} (e : Event P) : bool :=
  match e with
  | EvNewCollector _ _ | EvListenAndServe _ => true
  | _ => false
  end.

(** A read of the process environment. *)
Definition getenvEvent {P : Client} (e : Event P) : bool :=
  match e with
  | EvGetenv _ => true
  | _ => false
  end.

(** The configuration built from the command line for one device. *)
Definition singleDevice (name addr usr pass prt : string) : Config :=
  {| Devices := [ {| Name := name; Address := addr; Srv := zeroSrvRecord;
                     User := usr; Password := pass; Port := prt |} ];
     Features_ := zeroFeatures |}.

(** The user and the password [loadConfigFromFlags] ends up with. *)
Definition userOrEnv {P : Client} (s : State P) : string :=
  if decide (user (flags s) = "") then environ s "MIKROTIK_USER"
  else user (flags s).

Definition passwordOrEnv {P : Client} (s : State P) : string :=
  if decide (password (flags s) = "") then environ s "MIKROTIK_PASSWORD"
  else password (flags s).

(** What [loadConfigFromFile] makes of the result of [os.ReadFile]. *)
Definition fileConfig {Y : Yaml} (content : list byte * option error)
  : option Config * option error :=
  match content.2 with
  | Some err => (None, Some err)
  | None => Load content.1
  end.

(** The flags [fl] with [-version] set to [v]. *)
Definition setVer (v : bool) (fl : Flags) : Flags :=
  {| address := address fl; configFile := configFile fl; device := device fl;
     insecure := insecure fl; logFormat := logFormat fl;
     logLevel := logLevel fl; metricsPath := metricsPath fl;
     password := password fl; deviceport := deviceport fl; port := port fl;
     timeout := timeout fl; tls := tls fl; user := user fl; ver := v;
     withBgp := withBgp fl; withConntrack := withConntrack fl;
     withRoutes := withRoutes fl; withDHCP := withDHCP fl;
     withDHCPL := withDHCPL fl; withDHCPv6 := withDHCPv6 fl;
     withFirmware := withFirmware fl; withHealth := withHealth fl;
     withPOE := withPOE fl; withPools := withPools fl;
     withOptics := withOptics fl; withW60G := withW60G fl;
     withWlanSTA := withWlanSTA fl; withWlanIF := withWlanIF fl;
     withCapsman := withCapsman fl; withMonitor := withMonitor fl;
     withIpsec := withIpsec fl; withLte := withLte fl;
     withNetwatch := withNetwatch fl |}.

(** The state [s] with the package variable [cfg] set to [c]. *)
Definition withCfg {P : Client} (c : option Config) (s : State P) : State P :=
  mkState (flags s) c (logger s) (environ s) (files s) (trace s).

(** A call of [ListenAndServe]. *)
Definition listenEvent {P : Client} (e : Event P) : bool :=
  match e with
  | EvListenAndServe _ => true
  | _ => false
  end.

(** Every option [collectorOptions] can append, in the order of the
    source, for a timeout [t] and a value [i] of [-insecure]. *)
Definition allOptions (t : Z) (i : bool) : list collector.Option :=
  [ collector.WithBGP; collector.WithRoutes; collector.WithDHCP;
    collector.WithDHCPL; collector.WithDHCPv6; collector.WithFirmware;
    collector.WithHealth; collector.WithPOE; collector.WithPools;
    collector.WithOptics; collector.WithW60G; collector.WithWlanSTA;
    collector.WithCapsman; collector.WithWlanIF; collector.Monitor;
    collector.WithIpsec; collector.WithConntrack; collector.WithLte;
    collector.WithNetwatch; collector.WithTimeout t; collector.WithTLS i ].

(** The reads of the environment [loadConfigFromFlags] makes in [s]. *)
Definition envReads {P : Client} (s : State P) : list (Event P) :=
  (if decide (user (flags s) = "") then [EvGetenv "MIKROTIK_USER"] else [])
  ++ (if decide (password (flags s) = "")
      then [EvGetenv "MIKROTIK_PASSWORD"] else []).

(** The bytes that releases of net/http after 1.21 give a meaning to in
    a pattern: braces around a wildcard, the blank or tab that ends a
    method, the percent sign of an escape. *)
Definition reserved : list Ascii.ascii :=
  map Ascii.ascii_of_nat [123; 125; 32; 9; 37]%nat.

(** A pattern that every release of net/http reads as the same path: it
    starts with a slash, is in canonical form, and holds no reserved
    byte. *)
Definition plainPattern (pat : string) : bool :=
  bool_decide (http.firstByte pat = Some http.slash)
  && bool_decide (http.cleanPath pat = pat)
  && forallb (fun c => negb (existsb (Ascii.eqb c) reserved))
       (String.list_ascii_of_string pat).

(** The page served under [/] when [-path] is [path]. *)
Definition landingPage (path : string) : string :=
  let indent := LF +:+ main.TAB +:+ main.TAB +:+ main.TAB in
  "<html>"
  +:+ indent +:+ "<head><title>Mikrotik Exporter</title></head>"
  +:+ indent +:+ "<body>"
  +:+ indent +:+ "<h1>Mikrotik Exporter</h1>"
  +:+ indent +:+ "<p><a href=" +:+ main.QUOTE +:+ path
  +:+ main.QUOTE +:+ ">Metrics</a></p>"
  +:+ indent +:+ "</body>"
  +:+ indent +:+ "</html>".

(** What a call of the standard logger at level [lvl] writes when the
    logger's level is [ll]: the entry, or nothing when [ll] does not
    enable [lvl]. *)
Definition entryAt {P : Client} (ll lvl : log.Level) (err : option error)
  (msg : string) : list (Event P) :=
  if (log.rank lvl <=? log.rank ll)%Z then [EvLog lvl err msg] else [].

(** The level [-log-level] asks for in state [s]. *)
Definition levelOf {P : Client} {R : Runtime} (s : State P) : log.Level :=
  (ParseLevel (logLevel (flags s))).1.


(** What [main] does once the collector is built: it logs, and it calls
    [ListenAndServe]. *)
Definition tailEvent {P : Client} (e : Event P) : bool :=
  match e with
  | EvLog _ _ _ | EvListenAndServe _ => true
  | _ => false
  end.

(** A call of [collector.NewCollector]. *)
Definition collectorEvent {P : Client} (e : Event P) : bool :=
  match e with
  | EvNewCollector _ _ => true
  | _ => false
  end.

(** The computation [c] changes the state only by adding events that
    satisfy [Q] to the trace. *)
Definition emitsOnly {P : Client} {A : Type} (Q : Event P -> bool)
  (c : State P -> Outcome A * State P) : Prop :=
  forall s, exists evs, (c s).2 = appendTrace evs s
                        /\ Forall (fun e => Q e = true) evs.

(** The steps of [main] once the metrics handler is there, or not. *)
Definition afterHandler {P : Client} {R : Runtime}
  (r : option (http.Handler (Ambient P)) * option error)
  : State P -> Outcome unit * State P :=
  bind
    (let '(metricsHandler, err) := r in
     match err with
     | Some err => ret (None, Some err)
     | None =>
         bind (get (fun s => metricsPath (flags s)))
           (fun pat =>
              bind (orPanic (http.Handle http.NewServeMux pat metricsHandler))
                (fun mux =>
                   bind (orPanic (http.HandleFunc mux "/healthz" (Some healthz)))
                     (fun mux =>
                        bind (orPanic (http.HandleFunc mux "/" (Some index)))
                          (fun mux =>
                             bind (get (fun s => port (flags s)))
                               (fun addr =>
                                  ret (Some {| http.Addr := addr;
                                               http.Server_Handler := mux |},
                                       None))))))
     end)
    (fun r =>
       let '(srv, err) := r in
       match err with
       | Some err => log_WithError_Fatal err "Could not create server"
       | None =>
           bind (get (fun s => port (flags s)))
             (fun addr =>
                bind (log_Infof ("Starting server on " +:+ addr))
                  (fun _ =>
                     bind (srv_ListenAndServe srv)
                       (fun err =>
                          match err with
                          | Some err =>
                              if decide (err <> http.ErrServerClosed)
                              then log_WithError_Fatal err
                                     "Failed to start server"
                              else ret tt
                          | None => ret tt
                          end)))
       end).

End spec.

(** * Properties *)

Import config prometheus main spec.

(** ** Loading a configuration document *)

Section LoadProperties.
Context {Y : Yaml}.

(** [Load] is [Unmarshal] into a zero [Config], with the result dropped
    when there is an error. *)
Lemma Load_unfold (d : list byte) :
  Load d = match (Unmarshal d zeroConfig).2 with
           | Some err => (None, Some err)
           | None => (Some (Unmarshal d zeroConfig).1, None)
           end.
Proof.
  unfold Load. destruct (Unmarshal d zeroConfig) as [c [err|]]; reflexivity.
Qed.

(** C4.  For every byte sequence [d], [Load d] returns an error exactly
    when [yaml.Unmarshal] of [d] into a zero [Config] does.  If it does,
    [Load] returns a nil [*Config] and that same error; if it does not,
    [Load] returns a [Config] whose [Devices] and [Features] are the ones
    [Unmarshal] decoded, and no error. *)
Theorem Load_fails_iff_Unmarshal_fails (d : list byte) :
  let decoded := Unmarshal d zeroConfig in
  ((Load d).2 <> None <-> decoded.2 <> None)
  /\ (forall err, decoded.2 = Some err -> Load d = (None, Some err))
  /\ (decoded.2 = None ->
      exists c, Load d = (Some c, None)
                /\ Devices c = Devices decoded.1
                /\ Features_ c = Features_ decoded.1).
Proof.
  intros decoded. rewrite Load_unfold. fold decoded.
  destruct (decoded.2) as [err|] eqn:E; cbn.
  - split; [tauto|]. split; [congruence | discriminate].
  - split; [tauto|]. split; [discriminate|].
    intros _. exists decoded.1. auto.
Qed.





End LoadProperties.

(** ** Running the program *)

Section RunProperties.
Context {Y : Yaml} {P : Client} {R : Runtime}.

Lemma bind_Ret {A B} (c : M A) (k : A -> M B) (s s' : State P) (a : A) :
  c s = (Ret a, s') -> bind c k s = k a s'.
Proof. intros H. unfold bind. by rewrite H. Qed.

Lemma bind_get {A B} (f : State P -> A) (k : A -> M B) (s : State P) :
  bind (get f) k s = k (f s) s.
Proof. reflexivity. Qed.

(** With a configuration in place, [*flag || cfg.Features.X] is the
    disjunction and changes nothing. *)
Lemma enabled_run flag tog (s : State P) (c : Config) :
  cfg s = Some c ->
  enabled flag tog s = (Ret (flag (flags s) || tog (Features_ c)), s).
Proof.
  intros Hc. unfold enabled. rewrite bind_get.
  destruct (flag (flags s)); [reflexivity|].
  rewrite bind_get, Hc. reflexivity.
Qed.

Lemma bind_enabled {B} flag tog (k : bool -> M B) (s : State P) (c : Config) :
  cfg s = Some c ->
  bind (enabled flag tog) k s = k (flag (flags s) || tog (Features_ c)) s.
Proof. intros Hc. apply bind_Ret. by apply enabled_run. Qed.

(** [collectorOptions] returns [optionsOf] and leaves the state as it is. *)
Lemma collectorOptions_run (s : State P) (c : Config) :
  cfg s = Some c ->
  collectorOptions s = (Ret (optionsOf DefaultTimeout (flags s) c), s).
Proof.
  intros Hc. unfold collectorOptions, optionsOf.
  repeat (rewrite (bind_enabled _ _ _ s c Hc); cbv beta zeta).
  rewrite !bind_get. unfold appendIf at 1.
  destruct (tls (flags s)); [rewrite bind_get|]; reflexivity.
Qed.

End RunProperties.

(** ** The collector options *)

Section OptionProperties.
Context {Y : Yaml} {P : Client} {R : Runtime}.

Lemma In_appendIf (o x : collector.Option) (b : bool) opts :
  In o (appendIf b opts x) <-> In o opts \/ (b = true /\ o = x).
Proof.
  unfold appendIf. destruct b.
  - rewrite in_app_iff. cbn. intuition.
  - intuition discriminate.
Qed.

(** An option that is not the one appended is in the list only if it was
    there before. *)
Lemma In_appendIf_other (o x : collector.Option) (b : bool) opts :
  o <> x -> In o (appendIf b opts x) <-> In o opts.
Proof. intros Hne. rewrite In_appendIf. intuition. Qed.

Lemma In_appendIf_same (x : collector.Option) (b : bool) opts :
  In x (appendIf b opts x) <-> In x opts \/ b = true.
Proof. rewrite In_appendIf. intuition. Qed.

(** Membership in the option list, one [if] of the source at a time. *)
Ltac option_membership :=
  unfold optionsOf; cbv zeta;
  repeat first
    [ rewrite In_appendIf_other by discriminate
    | rewrite In_appendIf_same ];
  cbn [In]; rewrite ?orb_true_iff; tauto.

(** C1.  For every feature domain, the option that enables it is in the
    list [collectorOptions] builds if and only if its command-line flag
    is true or its toggle in the configuration file is true. *)
Theorem collectorOptions_feature_iff (s : State P) (c : Config) (F : Feature) :
  cfg s = Some c ->
  exists opts,
    collectorOptions s = (Ret opts, s)
    /\ (In (optionFor F) opts <->
        cliFlag F (flags s) = true \/ toggle F (Features_ c) = true).
Proof.
  intros Hc. eexists. split; [by apply collectorOptions_run|].
  destruct F; cbn [optionFor cliFlag toggle]; option_membership.
Qed.

(** C6.  The list holds a TLS option exactly when [-tls] is set, and that
    option carries the value of [-insecure]; when [-tls] is not set, the
    list is the same whatever [-insecure] is. *)
Theorem collectorOptions_tls (s : State P) (c : Config) :
  cfg s = Some c ->
  exists opts,
    collectorOptions s = (Ret opts, s)
    /\ (forall i, In (collector.WithTLS i) opts <->
                  tls (flags s) = true /\ i = insecure (flags s))
    /\ (tls (flags s) = false ->
        forall i, let s' := withFlags (setInsecure i (flags s)) s in
                  collectorOptions s' = (Ret opts, s')).
Proof.
  intros Hc. eexists. split; [by apply collectorOptions_run|]. split.
  - intros i. unfold optionsOf. cbv zeta.
    rewrite In_appendIf.
    repeat rewrite In_appendIf_other by discriminate. cbn [In].
    split.
    + intros [[]|[Ht Hi]]. split; [done|congruence].
    + intros [Ht ->]. right. done.
  - intros Ht i s'. rewrite (collectorOptions_run s' c Hc).
    f_equal. f_equal. unfold optionsOf, s'. cbn.
    rewrite Ht. reflexivity.
Qed.

Lemma timeoutOf_appendIf_other D (b : bool) opts (x : collector.Option) :
  (forall d, x <> collector.WithTimeout d) ->
  collector.timeoutOf D (appendIf b opts x) = collector.timeoutOf D opts.
Proof.
  intros Hx. unfold appendIf, collector.timeoutOf. destruct b; [|done].
  rewrite fold_left_app. cbn. destruct x; try done. by destruct (Hx d).
Qed.

Lemma timeoutOf_appendIf_WithTimeout D (b : bool) opts (d : Z) :
  collector.timeoutOf D (appendIf b opts (collector.WithTimeout d)) =
  if b then d else collector.timeoutOf D opts.
Proof.
  unfold appendIf, collector.timeoutOf. destruct b; [|done].
  by rewrite fold_left_app.
Qed.

(** C7.  The list holds a timeout option exactly when [-timeout] differs
    from [collector.DefaultTimeout], and the option then carries the
    flag's value; when the two are equal nothing is appended and the
    collector keeps its default.  Either way the collector works with the
    value of the flag. *)
Theorem collectorOptions_timeout (s : State P) (c : Config) :
  cfg s = Some c ->
  exists opts,
    collectorOptions s = (Ret opts, s)
    /\ (forall d, In (collector.WithTimeout d) opts <->
                  timeout (flags s) <> DefaultTimeout /\ d = timeout (flags s))
    /\ collector.timeoutOf DefaultTimeout opts = timeout (flags s).
Proof.
  intros Hc. eexists. split; [by apply collectorOptions_run|]. split.
  - intros d. unfold optionsOf. cbv zeta.
    rewrite In_appendIf_other by discriminate.
    rewrite In_appendIf.
    repeat rewrite In_appendIf_other by discriminate. cbn [In].
    rewrite bool_decide_eq_true. split.
    + intros [[]|[Ht Hd]]. split; [done|congruence].
    + intros [Ht ->]. right. done.
  - unfold optionsOf. cbv zeta.
    rewrite timeoutOf_appendIf_other by discriminate.
    rewrite timeoutOf_appendIf_WithTimeout.
    repeat rewrite timeoutOf_appendIf_other by discriminate.
    unfold collector.timeoutOf. cbn.
    case_bool_decide as Ht; [done|].
    destruct (decide (timeout (flags s) = DefaultTimeout)); [done|].
    by destruct Ht.
Qed.

End OptionProperties.

(** ** Loading the configuration at start-up *)

Section StartupProperties.
Context {Y : Yaml} {P : Client} {R : Runtime}.

Lemma appendTrace_nil (s : State P) : appendTrace [] s = s.
Proof. destruct s. unfold appendTrace. cbn. by rewrite app_nil_r. Qed.

Lemma appendTrace_app (evs1 evs2 : list (Event P)) (s : State P) :
  appendTrace evs2 (appendTrace evs1 s) = appendTrace (evs1 ++ evs2) s.
Proof. unfold appendTrace. cbn. by rewrite app_assoc. Qed.

(** [loadConfigFromFile] reads the file named by [-config-file], once, and
    hands its content to [Load]. *)
Lemma loadConfigFromFile_run (s : State P) :
  loadConfigFromFile s =
  (Ret (fileConfig (files s (configFile (flags s)))),
   appendTrace [EvReadFile (configFile (flags s))] s).
Proof.
  unfold loadConfigFromFile, os_ReadFile, bind, get, emit, ret, fileConfig.
  cbn. fold (appendTrace [EvReadFile (configFile (flags s))] s).
  destruct (files s (configFile (flags s))) as [b [err|]]; reflexivity.
Qed.

(** [loadConfigFromFlags], in one step. *)
Lemma loadConfigFromFlags_run (s : State P) :
  let fl := flags s in
  let u := userOrEnv s in
  let p := passwordOrEnv s in
  exists s',
    loadConfigFromFlags s =
    (Ret (if bool_decide (device fl = "") || bool_decide (address fl = "")
             || bool_decide (u = "") || bool_decide (p = "")
          then (None, Some (errorString
                  "missing required param for single device configuration"))
          else (Some (singleDevice (device fl) (address fl) u p (deviceport fl)),
                None)),
     s')
    /\ user (flags s') = u /\ password (flags s') = p
    /\ cfg s' = cfg s
    /\ exists evs, trace s' = trace s ++ evs
                   /\ Forall (fun e => serverEvent e = false) evs.
Proof.
  intros fl u p. subst fl u p.
  unfold userOrEnv, passwordOrEnv, loadConfigFromFlags.
  rewrite bind_get.
  destruct (decide (user (flags s) = "")) as [Hu|Hu];
    unfold bind at 1; cbn;
    destruct (decide (password (flags s) = "")) as [Hp|Hp];
    unfold bind at 1; cbn;
    (eexists; split;
     [ match goal with
       | |- context [if ?b then _ else _] => destruct b; reflexivity
       end
     | cbn; repeat split; try reflexivity;
       first
         [ exists []; split; [by rewrite app_nil_r | constructor]
         | rewrite <- ?app_assoc; eexists; split;
           [reflexivity | repeat constructor] ] ]).
Qed.

(** C8.  With no configuration file, the single device comes from the
    flags: an empty [-user] is replaced by [MIKROTIK_USER] and an empty
    [-password] by [MIKROTIK_PASSWORD]; loading fails exactly when the
    device, the address, the user or the password is still empty, and
    otherwise gives a [Config] with that one device and no feature
    enabled. *)
Theorem loadConfig_single_device (s : State P) :
  configFile (flags s) = "" ->
  let fl := flags s in
  let u := if decide (user fl = "") then environ s "MIKROTIK_USER"
           else user fl in
  let p := if decide (password fl = "") then environ s "MIKROTIK_PASSWORD"
           else password fl in
  let missing := device fl = "" \/ address fl = "" \/ u = "" \/ p = "" in
  exists r s',
    loadConfig s = (Ret r, s')
    /\ user (flags s') = u /\ password (flags s') = p
    /\ ((exists err, r.2 = Some err) <-> missing)
    /\ (missing ->
        r = (None, Some (errorString
               "missing required param for single device configuration")))
    /\ (~ missing ->
        r = (Some {| Devices := [ {| Name := device fl;
                                     Address := address fl;
                                     Srv := zeroSrvRecord;
                                     User := u;
                                     Password := p;
                                     Port := deviceport fl |} ];
                     Features_ := zeroFeatures |},
             None)).
Proof.
  intros Hf fl u p missing.
  destruct (loadConfigFromFlags_run s) as (s' & Hrun & Hu & Hp & _).
  fold fl in Hrun. fold u in Hu. fold p in Hp.
  change (userOrEnv s) with u in Hrun.
  change (passwordOrEnv s) with p in Hrun.
  eexists _, s'. split.
  { unfold loadConfig. rewrite bind_get.
    destruct (decide (configFile (flags s) <> "")); [done|]. exact Hrun. }
  split; [done|]. split; [done|].
  assert (Hm : bool_decide (device fl = "") || bool_decide (address fl = "")
               || bool_decide (u = "") || bool_decide (p = "") = true
               <-> missing).
  { rewrite !orb_true_iff, !bool_decide_eq_true. unfold missing. tauto. }
  destruct (bool_decide (device fl = "") || bool_decide (address fl = "")
            || bool_decide (u = "") || bool_decide (p = "")); cbn.
  - split; [|split]; [| done |].
    + split; [intros _; by apply Hm | eauto].
    + intros Hn. destruct Hn. by apply Hm.
  - split; [|split]; [| | done].
    + split; [by intros [err ?] | intros H; apply Hm in H; done].
    + intros H. apply Hm in H. done.
Qed.

(** C9.  With a configuration file named, [loadConfig] is
    [loadConfigFromFile]: it reads that file and nothing else, its result
    is a function of the file's content alone, and the flag variables are
    left as they were.  The flags of the single device are used only when
    [-config-file] is empty. *)
Theorem loadConfig_file_only (s : State P) :
  (configFile (flags s) <> "" ->
   let name := configFile (flags s) in
   loadConfig s = loadConfigFromFile s
   /\ loadConfig s =
      (Ret (match (files s name).2 with
            | Some err => (None, Some err)
            | None => Load (files s name).1
            end),
       appendTrace [EvReadFile name] s)
   /\ (forall s2 : State P,
         configFile (flags s2) = name -> files s2 name = files s name ->
         (loadConfig s2).1 = (loadConfig s).1))
  /\ (configFile (flags s) = "" -> loadConfig s = loadConfigFromFlags s).
Proof.
  split.
  - intros Hf name.
    assert (Hl : forall s2 : State P, configFile (flags s2) <> "" ->
                 loadConfig s2 = loadConfigFromFile s2).
    { intros s2 H2. unfold loadConfig. rewrite bind_get.
      by destruct (decide (configFile (flags s2) <> "")). }
    split; [by apply Hl|]. split.
    + rewrite (Hl s Hf). apply loadConfigFromFile_run.
    + intros s2 Hn Hfs. rewrite (Hl s Hf), Hl by (rewrite Hn; exact Hf).
      rewrite !loadConfigFromFile_run. cbn [fst].
      fold name. rewrite Hn, Hfs. reflexivity.
  - intros Hf. unfold loadConfig. rewrite bind_get.
    destruct (decide (configFile (flags s) <> "")); [done|reflexivity].
Qed.

End StartupProperties.

(** ** A configuration that cannot be loaded *)

Section FailureProperties.
Context {Y : Yaml} {P : Client} {R : Runtime}.

(** [configureLog] touches the logger only. *)
Lemma configureLog_keeps (s s0 : State P) :
  configureLog s = (Ret tt, s0) ->
  flags s0 = flags s /\ cfg s0 = cfg s /\ trace s0 = trace s.
Proof.
  unfold configureLog. rewrite bind_get.
  destruct (ParseLevel (logLevel (flags s))) as [ll [err|]]; [discriminate|].
  unfold bind, get, log_SetLevel, log_SetFormatter, setLogger. cbn.
  destruct (decide (logFormat (flags s) = "text")); cbn;
    intros [= <-]; done.
Qed.

(** Loading the configuration adds reads of the environment or of the
    file to the trace, and nothing else. *)
Lemma loadConfig_trace (s s1 : State P) o :
  loadConfig s = (o, s1) ->
  exists evs, trace s1 = trace s ++ evs
              /\ Forall (fun e => serverEvent e = false) evs.
Proof.
  unfold loadConfig. rewrite bind_get.
  destruct (decide (configFile (flags s) <> "")).
  - rewrite loadConfigFromFile_run. intros [= _ <-].
    eexists. split; [reflexivity|]. repeat constructor.
  - destruct (loadConfigFromFlags_run s) as (s' & Hrun & _ & _ & _ & Hev).
    rewrite Hrun. intros [= _ <-]. exact Hev.
Qed.

(** [configureLog] sets the level of the standard logger to the one
    [-log-level] names. *)
Lemma configureLog_level (s s0 : State P) :
  configureLog s = (Ret tt, s0) -> log.level (logger s0) = levelOf s.
Proof.
  unfold configureLog, levelOf. rewrite bind_get.
  destruct (ParseLevel (logLevel (flags s))) as [ll [err|]]; [discriminate|].
  unfold bind, get, log_SetLevel, log_SetFormatter, setLogger. cbn.
  destruct (decide (logFormat (flags s) = "text")); cbn;
    intros [= <-]; done.
Qed.

(** Loading the configuration leaves the logger alone. *)
Lemma loadConfig_logger (s s1 : State P) o :
  loadConfig s = (o, s1) -> logger s1 = logger s.
Proof.
  unfold loadConfig. rewrite bind_get.
  destruct (decide (configFile (flags s) <> "")).
  - rewrite loadConfigFromFile_run. by intros [= _ <-].
  - unfold loadConfigFromFlags. rewrite bind_get.
    destruct (decide (user (flags s) = ""));
      unfold bind at 1; cbn;
      destruct (decide (password (flags s) = ""));
      unfold bind at 1; cbn;
      match goal with
      | |- context [if ?b then _ else _] => destruct b
      end; by intros [= _ <-].
Qed.

(** A call of the standard logger, in one step. *)
Lemma entry_Log_run (lvl : log.Level) (err : option error) (msg : string)
  (s : State P) :
  entry_Log lvl err msg s =
  (Ret tt, appendTrace (entryAt (log.level (logger s)) lvl err msg) s).
Proof.
  unfold entry_Log, entryAt, log.IsLevelEnabled. rewrite bind_get.
  destruct (log.rank lvl <=? log.rank (log.level (logger s)))%Z.
  - reflexivity.
  - by rewrite appendTrace_nil.
Qed.

(** An entry is no event of the server. *)
Lemma entryAt_serverEvent (ll lvl : log.Level) (err : option error)
  (msg : string) :
  Forall (fun e : Event P => serverEvent e = false) (entryAt ll lvl err msg).
Proof. unfold entryAt. destruct (_ <=? _)%Z; repeat constructor. Qed.

(** C2.  When [loadConfig] returns an error, [main] hands it to
    [log.Errorf] and exits with status 3.  The entry is written when the
    level set with [-log-level] enables the error level, and not
    otherwise.  Nothing that belongs to the server has happened by then:
    no collector was built and [ListenAndServe] was not called. *)
Theorem main_exits_3_on_config_error
  (s s0 s1 : State P) (c : option Config) (err : error) :
  ver (flags s) = false ->
  configureLog s = (Ret tt, s0) ->
  loadConfig s0 = (Ret (c, Some err), s1) ->
  main s =
  (Exit 3,
   appendTrace (entryAt (levelOf s) log.ErrorLevel None
                  ("Could not load config: " +:+ Error err)) s1)
  /\ exists evs, trace (main s).2 = trace s ++ evs
                 /\ Forall (fun e => serverEvent e = false) evs.
Proof.
  intros Hv Hlog Hload.
  assert (Hmain : main s =
    (Exit 3, appendTrace (entryAt (levelOf s) log.ErrorLevel None
                            ("Could not load config: " +:+ Error err)) s1)).
  { unfold main. rewrite bind_get, Hv.
    unfold bind at 1. cbn [ret].
    rewrite (bind_Ret _ _ _ _ _ Hlog).
    rewrite (bind_Ret _ _ _ _ _ Hload).
    unfold log_Errorf. rewrite (bind_Ret _ _ _ _ _ (entry_Log_run _ _ _ s1)).
    rewrite (loadConfig_logger _ _ _ Hload), (configureLog_level _ _ Hlog).
    reflexivity. }
  split; [exact Hmain|].
  rewrite Hmain. cbn [snd appendTrace trace].
  destruct (configureLog_keeps _ _ Hlog) as (_ & _ & Ht0).
  destruct (loadConfig_trace _ _ _ Hload) as (evs & Ht1 & Hevs).
  eexists. split.
  - rewrite Ht1, Ht0, <- app_assoc. reflexivity.
  - apply Forall_app. split; [exact Hevs|]. apply entryAt_serverEvent.
Qed.

End FailureProperties.

(** ** The metrics handler *)

Section HandlerProperties.
Context {Y : Yaml} {P : Client} {R : Runtime}.

Lemma bind_reads {A B} (c : M A) (k : A -> M B) :
  (forall s, (c s).2 = s) -> (forall a s, (k a s).2 = s) ->
  forall s, (bind c k s).2 = s.
Proof.
  intros Hc Hk s. unfold bind. specialize (Hc s).
  destruct (c s) as [[a|code|v] s']; cbn in Hc; subst; [apply Hk|done..].
Qed.

Lemma enabled_reads flag tog (s : State P) : (enabled flag tog s).2 = s.
Proof.
  unfold enabled. rewrite bind_get. destruct (flag (flags s)); [done|].
  rewrite bind_get. by destruct (cfg s).
Qed.

(** [collectorOptions] only reads the state. *)
Lemma collectorOptions_reads (s : State P) : (collectorOptions s).2 = s.
Proof.
  revert s. unfold collectorOptions.
  repeat (apply bind_reads; [apply enabled_reads|intros ?]).
  intros s. rewrite !bind_get. destruct (tls (flags s)); [rewrite bind_get|]; done.
Qed.

(** What it takes for [createMetricsHandler] to return a handler. *)
Lemma createMetricsHandler_inv (s s' : State P) hdl :
  createMetricsHandler s = (Ret (Some hdl, None), s') ->
  exists opts nc,
    collectorOptions s = (Ret opts, s)
    /\ NewCollector (cfg s) opts = (Some nc, None)
    /\ hdl = promhttp.HandlerFor world [NewGoCollector; nc]
               {| promhttp.ErrorLog := Some log.New;
                  promhttp.ErrorHandling := promhttp.ContinueOnError |}
    /\ s' = appendTrace [EvNewCollector (cfg s) opts] s.
Proof.
  unfold createMetricsHandler. unfold bind at 1.
  pose proof (collectorOptions_reads s) as Hs.
  destruct (collectorOptions s) as [[opts|code|v] s1]; cbn in Hs; subst s1;
    [|discriminate..].
  rewrite bind_get. unfold bind at 1. cbn [emit].
  fold (appendTrace [EvNewCollector (cfg s) opts] s).
  unfold ret, panic, Register, NewRegistry.
  destruct (NewCollector (cfg s) opts) as [nc [err|]] eqn:Enc; [discriminate|].
  destruct (registerError _ _); [discriminate|].
  destruct nc as [nc|]; [|discriminate]. cbn [app].
  destruct (registerError _ _); [discriminate|].
  intros [= <- <-]. exists opts, nc. done.
Qed.

(** What the encoder has written once every family is out. *)
Lemma encodeAll_written (w : http.ResponseWriter) (mfs : list MetricFamily) :
  mfs <> [] ->
  promhttp.encodeAll w mfs =
  {| http.status := Some (default http.StatusOK (http.status w));
     http.location := http.location w;
     http.body := http.body w ++ concat (map encodeFamily mfs) |}.
Proof.
  revert w. induction mfs as [|mf rest IH]; intros w Hne; [done|].
  unfold promhttp.encodeAll in *. cbn [fold_left].
  destruct rest as [|mf' rest'].
  - cbn. unfold http.Write, http.WriteHeader.
    destruct (http.status w) eqn:E; cbn; rewrite ?E; by rewrite app_nil_r.
  - rewrite IH by done. unfold http.Write, http.WriteHeader.
    destruct (http.status w) eqn:E; cbn; rewrite ?E; by rewrite <- app_assoc.
Qed.

(** C3.  The handler [createMetricsHandler] returns is the one of
    [promhttp] for a registry of the Go collector and the device
    collector, set to continue on error.  As the Go collector always has
    something to report, every request gets status 200 and the families
    that were gathered, whatever errors the device collector raised
    during the scrape. *)
Theorem metrics_handler_continues_on_error (s s' : State P) hdl :
  createMetricsHandler s = (Ret (Some hdl, None), s') ->
  (forall sc, (NewGoCollector sc).1 <> []) ->
  exists opts nc,
    NewCollector (cfg s) opts = (Some nc, None)
    /\ hdl = promhttp.HandlerFor world [NewGoCollector; nc]
               {| promhttp.ErrorLog := Some log.New;
                  promhttp.ErrorHandling := promhttp.ContinueOnError |}
    /\ forall (amb : Ambient P) (r : http.Request),
         hdl amb http.fresh r =
         http.Returned
           {| http.status := Some http.StatusOK;
              http.location := None;
              http.body :=
                concat (map encodeFamily
                          ((NewGoCollector (world amb)).1
                           ++ (nc (world amb)).1)) |}.
Proof.
  intros Hh Hgo.
  destruct (createMetricsHandler_inv _ _ _ Hh) as (opts & nc & _ & Hnc & -> & _).
  exists opts, nc. split; [done|]. split; [done|].
  intros amb r. unfold promhttp.HandlerFor, Gather. cbn [map concat fst snd].
  rewrite !app_nil_r.
  assert (Hne : (NewGoCollector (world amb)).1 ++ (nc (world amb)).1 <> []).
  { intros [H _]%app_eq_nil. by apply (Hgo (world amb)). }
  pose proof (encodeAll_written http.fresh _ Hne) as Henc. cbn in Henc.
  destruct ((NewGoCollector (world amb)).2 ++ (nc (world amb)).2);
    cbn [promhttp.ErrorHandling].
  - by rewrite Henc.
  - destruct ((NewGoCollector (world amb)).1 ++ (nc (world amb)).1) eqn:E;
      [done|]. by rewrite Henc.
Qed.

End HandlerProperties.

(** ** The server *)

Section ServerProperties.
Context {Y : Yaml} {P : Client} {R : Runtime} {N : http.Net}.

(** What a successful [mux.Handle] has done. *)
Lemma Handle_inv (mux mux' : http.ServeMux (Ambient P)) pat hdl :
  http.Handle mux pat (Some hdl) = inl mux' ->
  pat <> ""
  /\ http.m mux !! pat = None
  /\ http.m mux' = <[pat := http.mkMuxEntry hdl pat]> (http.m mux)
  /\ http.hosts mux' =
     if decide (http.firstByte pat = Some http.slash)
     then http.hosts mux else true.
Proof.
  unfold http.Handle.
  destruct (decide (pat = "")); [discriminate|].
  destruct (http.m mux !! pat) eqn:E; [discriminate|].
  intros [= <-]. done.
Qed.

(** What it takes for [newServer] to return a server. *)
Lemma newServer_inv (s s' : State P) srv :
  newServer s = (Ret (Some srv, None), s') ->
  exists mh s1 mux1 mux2,
    createMetricsHandler s = (Ret (Some mh, None), s1)
    /\ http.Handle http.NewServeMux (metricsPath (flags s1)) (Some mh)
       = inl mux1
    /\ http.Handle mux1 "/healthz" (Some healthz) = inl mux2
    /\ http.Handle mux2 "/" (Some index) = inl (http.Server_Handler srv).
Proof.
  unfold newServer. unfold bind at 1.
  destruct (createMetricsHandler s) as [[[mh [err|]]|code|v] s1] eqn:E;
    try discriminate.
  rewrite bind_get. unfold bind at 1, orPanic at 1.
  destruct mh as [mh|]; [|unfold http.Handle;
    destruct (decide (metricsPath (flags s1) = "")); discriminate].
  destruct (http.Handle http.NewServeMux (metricsPath (flags s1)) (Some mh))
    as [mux1|v] eqn:E1; [|discriminate]. unfold ret at 1.
  unfold bind at 1, orPanic at 1, http.HandleFunc at 1.
  destruct (http.Handle mux1 "/healthz" (Some healthz))
    as [mux2|v] eqn:E2; [|discriminate]. unfold ret at 1.
  unfold bind at 1, orPanic at 1, http.HandleFunc at 1.
  destruct (http.Handle mux2 "/" (Some index))
    as [mux3|v] eqn:E3; [|discriminate]. unfold ret at 1.
  rewrite bind_get. unfold ret. intros [= <- <-].
  exists mh, s1, mux1, mux2. done.
Qed.

(** A request whose path is in canonical form and is registered as a
    pattern, on a mux without host patterns, goes to the handler of that
    pattern. *)
Lemma ServeMux_Handler_exact (mux : http.ServeMux (Ambient P))
  (r : http.Request) (e : http.muxEntry (Ambient P)) :
  http.hosts mux = false ->
  http.m mux !! http.Path r = Some e ->
  http.cleanPath (http.Path r) = http.Path r ->
  http.ServeMux_Handler mux r = http.h e.
Proof.
  intros Hh Hlook Hclean.
  assert (Hno : forall host query,
            http.redirectToPathSlash mux host (http.Path r) query = None).
  { intros host query. unfold http.redirectToPathSlash, http.shouldRedirect.
    rewrite Hlook. by destruct (decide (is_Some (Some e))) as [_|[]]. }
  unfold http.ServeMux_Handler. rewrite Hclean, !Hno.
  unfold http.handler, http.match_. rewrite Hh, Hlook.
  destruct (decide (http.Method r = "CONNECT")); [done|].
  by destruct (decide (http.Path r <> http.Path r)).
Qed.

(** C5 (as amended).  When the pattern given by [-path] starts with a
    slash, so that it names neither a host nor a method, every request
    for [/healthz] is answered by the handler registered for it: status
    200 and the body [ok], whatever the configuration, the request's host
    and method, and the state of the devices. *)
Theorem healthz_answers_ok (s s' : State P) srv
  (amb : Ambient P) (r : http.Request) :
  newServer s = (Ret (Some srv, None), s') ->
  http.firstByte (metricsPath (flags s)) = Some http.slash ->
  http.Path r = "/healthz" ->
  http.ServeHTTP (http.Server_Handler srv) amb http.fresh r =
  http.Returned {| http.status := Some http.StatusOK;
                   http.location := None;
                   http.body := String.list_byte_of_string "ok" |}.
Proof.
  intros Hsrv Hpat Hpath.
  destruct (newServer_inv _ _ _ Hsrv) as (mh & s1 & mux1 & mux2 & Hmh & H1 & H2 & H3).
  destruct (createMetricsHandler_inv _ _ _ Hmh) as (opts & nc & _ & _ & _ & Hs1).
  rewrite Hs1 in H1. cbn [appendTrace flags] in H1.
  apply Handle_inv in H1 as (_ & _ & Hm1 & Hh1).
  apply Handle_inv in H2 as (_ & _ & Hm2 & Hh2).
  apply Handle_inv in H3 as (_ & _ & Hm3 & Hh3).
  rewrite Hpat in Hh1. cbn in Hh1, Hh2, Hh3.
  rewrite Hh1 in Hh2. rewrite Hh2 in Hh3.
  assert (Hlook : http.m (http.Server_Handler srv) !! "/healthz"
                  = Some (http.mkMuxEntry healthz "/healthz")).
  { rewrite Hm3, lookup_insert_ne by done.
    rewrite Hm2. apply lookup_insert_eq. }
  unfold http.ServeHTTP.
  destruct (decide (http.Path r = "*")) as [E|_];
    [rewrite Hpath in E; discriminate|].
  rewrite <- Hpath in Hlook.
  rewrite (ServeMux_Handler_exact _ r _ Hh3 Hlook); [reflexivity|].
  rewrite Hpath. reflexivity.
Qed.

End ServerProperties.

(** ** Further properties of the start-up path *)

Section MoreProperties.
Context {Y : Yaml} {P : Client} {R : Runtime} {N : http.Net}.

(** [Load] never returns a nil [*Config] together with a nil error. *)
Lemma Load_returns_config (d : list byte) c :
  Load d = (c, None) -> is_Some c.
Proof.
  rewrite Load_unfold. destruct (Unmarshal d zeroConfig).2; intros [= <-]; eauto.
Qed.

(** X1.  Whenever [loadConfig] returns no error, the [*Config] it returns
    is not nil: [cfg] is set by the time [collectorOptions] reads it. *)
Theorem loadConfig_returns_config (s s' : State P) c :
  loadConfig s = (Ret (c, None), s') -> is_Some c.
Proof.
  unfold loadConfig. rewrite bind_get.
  destruct (decide (configFile (flags s) <> "")).
  - rewrite loadConfigFromFile_run. unfold fileConfig.
    destruct (files s (configFile (flags s))).2.
    + discriminate.
    + intros [= H _]. by apply Load_returns_config in H.
  - destruct (loadConfigFromFlags_run s) as (s1 & Hrun & _).
    rewrite Hrun.
    destruct (bool_decide (device (flags s) = "") || _ || _ || _);
      intros [= <-]; eauto.
Qed.

(** X2.  With a configuration in place, [createMetricsHandler] calls
    [collector.NewCollector] once, with that configuration and with the
    options [collectorOptions] built, and does nothing else that shows. *)
Theorem createMetricsHandler_passes_options (s : State P) (c : Config) :
  cfg s = Some c ->
  exists o,
    createMetricsHandler s =
    (o, appendTrace
          [EvNewCollector (Some c) (optionsOf DefaultTimeout (flags s) c)] s).
Proof.
  intros Hc. unfold createMetricsHandler.
  rewrite (bind_Ret _ _ _ _ _ (collectorOptions_run s c Hc)).
  rewrite bind_get, Hc. unfold bind at 1. cbn [emit].
  fold (appendTrace [EvNewCollector (Some c) (optionsOf DefaultTimeout (flags s) c)] s).
  unfold ret, panic, Register, NewRegistry.
  destruct (NewCollector _ _) as [nc [err|]]; [eauto|].
  destruct (registerError _ _); [eauto|].
  destruct nc as [nc|]; [|eauto].
  destruct (registerError _ _); eauto.
Qed.

(** X3.  Started with [-path /healthz], the server is never built:
    [newServer] panics when the pattern is registered a second time, after
    the metrics handler was created. *)
Theorem newServer_panics_on_healthz_path (s s1 : State P) hdl :
  createMetricsHandler s = (Ret (Some hdl, None), s1) ->
  metricsPath (flags s) = "/healthz" ->
  exists v, newServer s = (Panic v, s1).
Proof.
  intros Hmh Hpath.
  destruct (createMetricsHandler_inv _ _ _ Hmh) as (opts & nc & _ & _ & _ & Hs1).
  unfold newServer. rewrite (bind_Ret _ _ _ _ _ Hmh). cbn iota.
  rewrite bind_get.
  replace (metricsPath (flags s1)) with "/healthz"
    by (rewrite Hs1; cbn; by rewrite Hpath).
  eexists. reflexivity.
Qed.

(** X4.  When the pattern given by [-path] is a plain path, a request for
    exactly that path, sent without escapes, is answered by the metrics
    handler. *)
Theorem metrics_path_served (s s' : State P) srv
  (amb : Ambient P) (w : http.ResponseWriter) (r : http.Request) :
  newServer s = (Ret (Some srv, None), s') ->
  plainPattern (metricsPath (flags s)) = true ->
  http.Path r = metricsPath (flags s) ->
  http.RawPath r = "" ->
  exists hdl s1,
    createMetricsHandler s = (Ret (Some hdl, None), s1)
    /\ http.ServeHTTP (http.Server_Handler srv) amb w r = hdl amb w r.
Proof.
  intros Hsrv Hplain Hpath _.
  unfold plainPattern in Hplain.
  apply andb_true_iff in Hplain as [Hplain _].
  apply andb_true_iff in Hplain as [Hpat Hclean].
  apply bool_decide_eq_true in Hpat, Hclean.
  destruct (newServer_inv _ _ _ Hsrv) as (mh & s1 & mux1 & mux2 & Hmh & H1 & H2 & H3).
  destruct (createMetricsHandler_inv _ _ _ Hmh) as (opts & nc & _ & _ & _ & Hs1).
  rewrite Hs1 in H1. cbn [appendTrace flags] in H1.
  apply Handle_inv in H1 as (_ & _ & Hm1 & Hh1).
  apply Handle_inv in H2 as (_ & Hn2 & Hm2 & Hh2).
  apply Handle_inv in H3 as (_ & Hn3 & Hm3 & Hh3).
  rewrite Hpat in Hh1. cbn in Hh1, Hh2, Hh3.
  rewrite Hh1 in Hh2. rewrite Hh2 in Hh3.
  set (pat := metricsPath (flags s)) in *.
  assert (Hne2 : pat <> "/healthz").
  { intros E. rewrite Hm1, E, lookup_insert_eq in Hn2. discriminate. }
  assert (Hne3 : pat <> "/").
  { intros E. rewrite Hm2, lookup_insert_ne, Hm1, E, lookup_insert_eq in Hn3;
      [discriminate|done]. }
  assert (Hlook : http.m (http.Server_Handler srv) !! pat
                  = Some (http.mkMuxEntry mh pat)).
  { rewrite Hm3, lookup_insert_ne by done.
    rewrite Hm2, lookup_insert_ne by done.
    rewrite Hm1. apply lookup_insert_eq. }
  exists mh, s1. split; [exact Hmh|].
  unfold http.ServeHTTP.
  destruct (decide (http.Path r = "*")) as [E|_].
  { rewrite Hpath in E. rewrite E in Hpat. discriminate. }
  rewrite <- Hpath in Hlook, Hclean.
  by rewrite (ServeMux_Handler_exact _ r _ Hh3 Hlook Hclean).
Qed.

(** Had the handler been set to [HTTPErrorOnError], an error of the
    device collector would have made the request fail with status 500. *)
Lemma HTTPErrorOnError_would_fail (nc : Collector) (amb : Ambient P)
  (r : http.Request) (err : error) (errs : list error) :
  (nc (world amb)).2 = err :: errs ->
  (NewGoCollector (world amb)).2 = [] ->
  exists w,
    promhttp.HandlerFor world [NewGoCollector; nc]
      {| promhttp.ErrorLog := Some log.New;
         promhttp.ErrorHandling := promhttp.HTTPErrorOnError |}
      amb http.fresh r = http.Returned w
    /\ http.status w = Some http.StatusInternalServerError.
Proof.
  intros Hnc Hgo. unfold promhttp.HandlerFor, Gather. cbn [map concat fst snd].
  rewrite Hnc, Hgo. cbn. eauto.
Qed.

End MoreProperties.

(** ** How [main] ends *)

Section OutcomeProperties.
Context {Y : Yaml} {P : Client} {R : Runtime}.

Lemma serverEvent_listenEvent (e : Event P) :
  serverEvent e = false -> listenEvent e = false.
Proof. by destruct e. Qed.

(** [createMetricsHandler] adds at most the call of [NewCollector] to the
    trace and changes nothing else. *)
Lemma createMetricsHandler_trace (s s' : State P) o :
  createMetricsHandler s = (o, s') ->
  exists evs, s' = appendTrace evs s
              /\ Forall (fun e => listenEvent e = false) evs.
Proof.
  unfold createMetricsHandler. unfold bind at 1.
  pose proof (collectorOptions_reads s) as Hs.
  destruct (collectorOptions s) as [[opts|code|v] s1]; cbn in Hs; subst s1.
  - rewrite bind_get. unfold bind at 1. cbn [emit].
    fold (appendTrace [EvNewCollector (cfg s) opts] s).
    intros H. exists [EvNewCollector (cfg s) opts].
    split; [|repeat constructor]. revert H.
    unfold ret, panic, Register, NewRegistry.
    destruct (NewCollector _ _) as [nc [err|]]; [by intros [= _ <-]|].
    destruct (registerError _ _); [by intros [= _ <-]|].
    destruct nc as [nc|]; [|by intros [= _ <-]].
    destruct (registerError _ _); by intros [= _ <-].
  - intros [= _ <-]. exists []. by rewrite appendTrace_nil.
  - intros [= _ <-]. exists []. by rewrite appendTrace_nil.
Qed.

(** The first steps of [main] when the configuration loads. *)
Lemma main_after_load (s s0 s1 : State P) (c : option Config) :
  ver (flags s) = false ->
  configureLog s = (Ret tt, s0) ->
  loadConfig s0 = (Ret (c, None), s1) ->
  main s =
  bind newServer
    (fun r =>
       let '(srv, err) := r in
       match err with
       | Some err => log_WithError_Fatal err "Could not create server"
       | None =>
           bind (get (fun s => port (flags s)))
             (fun addr =>
                bind (log_Infof ("Starting server on " +:+ addr))
                  (fun _ =>
                     bind (srv_ListenAndServe srv)
                       (fun err =>
                          match err with
                          | Some err =>
                              if decide (err <> http.ErrServerClosed)
                              then log_WithError_Fatal err
                                     "Failed to start server"
                              else ret tt
                          | None => ret tt
                          end)))
       end)
    (withCfg c s1).
Proof.
  intros Hv Hlog Hload. unfold main. rewrite bind_get, Hv.
  unfold bind at 1. cbn [ret].
  rewrite (bind_Ret _ _ _ _ _ Hlog).
  rewrite (bind_Ret _ _ _ _ _ Hload).
  reflexivity.
Qed.

(** X5.  With [-version], [main] prints the version and exits with status
    0 before anything else: the log level is not parsed, no configuration
    is loaded, nothing is read. *)
Theorem main_version_exits_0 (s : State P) :
  ver (flags s) = true ->
  main s =
  (Exit 0, appendTrace [EvPrintf ("Version: " +:+ version +:+ LF)] s).
Proof.
  intros Hv. unfold main. rewrite bind_get, Hv. reflexivity.
Qed.

(** X6.  A [-log-level] that logrus cannot parse makes [main] panic with
    the parse error, before the configuration is loaded: the state is
    untouched and the trace is empty of new events. *)
Theorem main_panics_on_invalid_log_level (s : State P) (err : error) :
  ver (flags s) = false ->
  (ParseLevel (logLevel (flags s))).2 = Some err ->
  main s = (Panic (Error err), s).
Proof.
  intros Hv Hl. unfold main. rewrite bind_get, Hv.
  unfold bind at 1. cbn [ret].
  unfold bind at 1, configureLog. rewrite bind_get.
  destruct (ParseLevel (logLevel (flags s))) as [ll e]. cbn in Hl. subst e.
  reflexivity.
Qed.

(** [newServer] adds events to the trace and changes nothing else. *)
Lemma newServer_state (s s' : State P) o :
  newServer s = (o, s') -> exists evs, s' = appendTrace evs s.
Proof.
  unfold newServer. unfold bind at 1.
  destruct (createMetricsHandler s) as [[[h err]|code|v] s1] eqn:E;
    apply createMetricsHandler_trace in E as (evs & -> & _);
    [|intros [= _ <-]; eauto..].
  destruct err as [err|]; [intros [= _ <-]; eauto|].
  rewrite bind_get. unfold bind, orPanic, ret, panic, get.
  repeat match goal with
         | |- context [match ?x with inl _ => _ | inr _ => _ end] => destruct x
         end; intros [= _ <-]; eauto.
Qed.

(** An entry is no call of [ListenAndServe]. *)
Lemma entryAt_listenEvent (ll lvl : log.Level) (err : option error)
  (msg : string) :
  Forall (fun e : Event P => listenEvent e = false) (entryAt ll lvl err msg).
Proof. unfold entryAt. destruct (_ <=? _)%Z; repeat constructor. Qed.

(** [log.WithError(err).Fatal(msg)], in one step. *)
Lemma log_WithError_Fatal_run {A} (err : error) (msg : string) (s : State P) :
  log_WithError_Fatal (A := A) err msg s =
  (Exit 1,
   appendTrace (entryAt (log.level (logger s)) log.FatalLevel (Some err) msg) s).
Proof.
  unfold log_WithError_Fatal.
  rewrite (bind_Ret _ _ _ _ _ (entry_Log_run _ _ _ s)). reflexivity.
Qed.

(** X7.  When the configuration loads and [createMetricsHandler] returns
    an error, [main] hands it to the logger at the fatal level with the
    message [Could not create server] and exits with status 1; the entry
    is written unless [-log-level] is [panic].  [ListenAndServe] is never
    called. *)
Theorem main_exits_1_when_server_cannot_be_created
  (s s0 s1 s2 : State P) (c : option Config) h (err : error) :
  ver (flags s) = false ->
  configureLog s = (Ret tt, s0) ->
  loadConfig s0 = (Ret (c, None), s1) ->
  createMetricsHandler (withCfg c s1) = (Ret (h, Some err), s2) ->
  main s =
  (Exit 1,
   appendTrace (entryAt (levelOf s) log.FatalLevel (Some err)
                  "Could not create server") s2)
  /\ (levelOf s <> log.PanicLevel ->
      entryAt (P := P) (levelOf s) log.FatalLevel (Some err)
        "Could not create server"
      = [EvLog log.FatalLevel (Some err) "Could not create server"])
  /\ exists evs, trace (main s).2 = trace s ++ evs
                 /\ Forall (fun e => listenEvent e = false) evs.
Proof.
  intros Hv Hlog Hload Hmh.
  destruct (createMetricsHandler_trace _ _ _ Hmh) as (evs2 & Hs2 & Hevs2).
  assert (Hlvl : log.level (logger s2) = levelOf s).
  { rewrite Hs2. cbn [appendTrace logger withCfg].
    rewrite (loadConfig_logger _ _ _ Hload). by apply configureLog_level. }
  assert (Hmain : main s =
    (Exit 1, appendTrace (entryAt (levelOf s) log.FatalLevel (Some err)
                            "Could not create server") s2)).
  { rewrite (main_after_load s s0 s1 c Hv Hlog Hload).
    unfold newServer.
    unfold bind at 1. unfold bind at 1. rewrite Hmh. cbn [ret].
    rewrite log_WithError_Fatal_run, Hlvl. reflexivity. }
  split; [exact Hmain|]. split.
  { intros Hne. unfold entryAt. by destruct (levelOf s). }
  rewrite Hmain. cbn [snd appendTrace trace].
  destruct (configureLog_keeps _ _ Hlog) as (_ & _ & Ht0).
  destruct (loadConfig_trace _ _ _ Hload) as (evs1 & Ht1 & Hevs1).
  rewrite Hs2. cbn [appendTrace trace withCfg].
  eexists. split.
  - rewrite Ht1, Ht0, <- !app_assoc. reflexivity.
  - rewrite !Forall_app. split; [|split; [exact Hevs2|]].
    + eapply Forall_impl; [exact Hevs1|]. apply serverEvent_listenEvent.
    + apply entryAt_listenEvent.
Qed.

(** X8.  When the configuration loads and [newServer] returns a server,
    [main] hands [Starting server on] followed by the value of [-port] to
    the logger at the info level and calls [ListenAndServe] on that
    server.  It returns normally when the call returns nil or
    [http.ErrServerClosed]; any other error goes to the logger at the
    fatal level with [Failed to start server], and [main] exits with
    status 1.  Each entry is written when the level set with [-log-level]
    enables its level. *)
Theorem main_runs_server
  (s s0 s1 s2 : State P) (c : option Config) srv :
  ver (flags s) = false ->
  configureLog s = (Ret tt, s0) ->
  loadConfig s0 = (Ret (c, None), s1) ->
  newServer (withCfg c s1) = (Ret (Some srv, None), s2) ->
  let started :=
    entryAt (levelOf s) log.InfoLevel None
      ("Starting server on " +:+ port (flags s2))
    ++ [EvListenAndServe srv] in
  (ListenAndServe srv = None \/ ListenAndServe srv = Some http.ErrServerClosed ->
   main s = (Ret tt, appendTrace started s2))
  /\ (forall err, ListenAndServe srv = Some err -> err <> http.ErrServerClosed ->
      main s =
      (Exit 1,
       appendTrace
         (started ++ entryAt (levelOf s) log.FatalLevel (Some err)
                       "Failed to start server")
         s2)).
Proof.
  intros Hv Hlog Hload Hsrv started.
  assert (Hlvl : log.level (logger s2) = levelOf s).
  { destruct (newServer_state _ _ _ Hsrv) as (evs & ->).
    cbn [appendTrace logger withCfg].
    rewrite (loadConfig_logger _ _ _ Hload). by apply configureLog_level. }
  assert (Hmain : main s =
    match ListenAndServe srv with
    | Some err =>
        if decide (err <> http.ErrServerClosed)
        then (Exit 1,
              appendTrace
                (started ++ entryAt (levelOf s) log.FatalLevel (Some err)
                              "Failed to start server") s2)
        else (Ret tt, appendTrace started s2)
    | None => (Ret tt, appendTrace started s2)
    end).
  { rewrite (main_after_load s s0 s1 c Hv Hlog Hload).
    rewrite (bind_Ret _ _ _ _ _ Hsrv). cbn iota. rewrite bind_get.
    unfold log_Infof. rewrite (bind_Ret _ _ _ _ _ (entry_Log_run _ _ _ s2)).
    rewrite Hlvl. unfold srv_ListenAndServe.
    unfold bind at 1. unfold bind at 1. cbn [emit ret].
    match goal with
    | |- context [mkState ?f ?c ?l ?e ?fs (?t ++ [EvListenAndServe srv])] =>
        change (mkState f c l e fs (t ++ [EvListenAndServe srv]))
          with (appendTrace [EvListenAndServe srv]
                  (appendTrace (entryAt (levelOf s) log.InfoLevel None
                     ("Starting server on " +:+ port (flags s2))) s2))
    end.
    rewrite appendTrace_app. fold started.
    destruct (ListenAndServe srv) as [err|]; [case_decide|]; [|done..].
    rewrite log_WithError_Fatal_run. cbn [appendTrace logger].
    rewrite Hlvl. f_equal. apply appendTrace_app. }
  rewrite Hmain. split.
  - intros [H|H]; rewrite H; [done|]. by case_decide.
  - intros err H Hne. rewrite H. by case_decide.
Qed.

End OutcomeProperties.

(** ** Which handler answers *)

Section RoutingProperties.
Context {Y : Yaml} {P : Client} {R : Runtime} {N : http.Net}.

Lemma lastByte_cons (c : Ascii.ascii) (t : string) :
  t <> "" -> http.lastByte (String c t) = http.lastByte t.
Proof.
  intros Ht. destruct t as [|c' t']; [done|].
  unfold http.lastByte. cbn. by rewrite Nat.sub_0_r.
Qed.

Lemma append_not_empty (a b : string) : b <> "" -> a +:+ b <> "".
Proof. intros Hb. destruct a; [done|discriminate]. Qed.

(** The last byte of a concatenation is the last byte of its second
    part. *)
Lemma lastByte_append (a b : string) :
  b <> "" -> http.lastByte (a +:+ b) = http.lastByte b.
Proof.
  intros Hb. induction a as [|c a IH]; [done|].
  change (String c a +:+ b) with (String c (a +:+ b)).
  rewrite lastByte_cons; [exact IH|].
  by apply append_not_empty.
Qed.

Lemma append_assoc (a b c : string) : a +:+ b +:+ c = (a +:+ b) +:+ c.
Proof.
  induction a as [|x a IH]; [done|].
  change (String x (a +:+ b +:+ c) = String x ((a +:+ b) +:+ c)).
  by rewrite IH.
Qed.

Lemma lastByte_slash (a : string) : http.lastByte (a +:+ "/") = Some http.slash.
Proof. by rewrite lastByte_append. Qed.

Lemma append_slash_not_slash (a : string) : a <> "" -> a +:+ "/" <> "/".
Proof.
  intros Ha. destruct a as [|c a]; [done|]. cbn. intros [= _ H].
  by destruct a.
Qed.

Lemma prefix_slash (p : string) :
  http.firstByte p = Some http.slash -> String.prefix "/" p = true.
Proof.
  destruct p as [|c p]; [done|]. unfold http.firstByte. cbn.
  intros [= ->]. cbn. by destruct p.
Qed.

Lemma firstByte_not_empty (p : string) (c : Ascii.ascii) :
  http.firstByte p = Some c -> p <> "".
Proof. by destruct p. Qed.

(** The list of subtree patterns after a successful [mux.Handle]. *)
Lemma Handle_es (mux mux' : http.ServeMux (Ambient P)) pat hdl :
  http.Handle mux pat (Some hdl) = inl mux' ->
  http.es mux' =
  if decide (http.lastByte pat = Some http.slash)
  then http.appendSorted (http.es mux) (http.mkMuxEntry hdl pat)
  else http.es mux.
Proof.
  unfold http.Handle.
  destruct (decide (pat = "")); [discriminate|].
  destruct (http.m mux !! pat); [discriminate|].
  by intros [= <-].
Qed.

(** A pattern that is not empty and not yet registered is accepted. *)
Lemma Handle_fresh (mux : http.ServeMux (Ambient P)) pat hdl :
  pat <> "" -> http.m mux !! pat = None ->
  exists mux',
    http.Handle mux pat (Some hdl) = inl mux'
    /\ http.m mux' = <[pat := http.mkMuxEntry hdl pat]> (http.m mux).
Proof.
  intros Hp Hn. unfold http.Handle.
  destruct (decide (pat = "")); [done|]. rewrite Hn. eauto.
Qed.

(** The mux of the server [newServer] returns: three patterns, all
    different, and [/] the only subtree pattern unless [-path] ends in a
    slash. *)
Lemma newServer_mux (s s' : State P) srv :
  newServer s = (Ret (Some srv, None), s') ->
  let pat := metricsPath (flags s) in
  exists mh,
    createMetricsHandler s = (Ret (Some mh, None), s')
    /\ pat <> "" /\ pat <> "/healthz" /\ pat <> "/"
    /\ http.m (http.Server_Handler srv) =
       <["/" := http.mkMuxEntry index "/"]>
         (<["/healthz" := http.mkMuxEntry healthz "/healthz"]>
            (<[pat := http.mkMuxEntry mh pat]> ∅))
    /\ http.hosts (http.Server_Handler srv) =
       (if decide (http.firstByte pat = Some http.slash) then false else true)
    /\ http.es (http.Server_Handler srv) =
       (if decide (http.lastByte pat = Some http.slash)
        then [http.mkMuxEntry mh pat; http.mkMuxEntry index "/"]
        else [http.mkMuxEntry index "/"]).
Proof.
  intros Hsrv pat.
  destruct (newServer_inv _ _ _ Hsrv) as (mh & s1 & mux1 & mux2 & Hmh & H1 & H2 & H3).
  assert (s' = s1) as ->.
  { revert Hsrv. unfold newServer. rewrite (bind_Ret _ _ _ _ _ Hmh).
    cbn iota. rewrite bind_get. rewrite H1. unfold orPanic at 1.
    unfold bind at 1, ret at 1. unfold http.HandleFunc. rewrite H2.
    unfold orPanic at 1. unfold bind at 1, ret at 1. rewrite H3.
    unfold orPanic at 1. unfold bind at 1, ret at 1. rewrite bind_get.
    by intros [= _ <-]. }
  destruct (createMetricsHandler_inv _ _ _ Hmh) as (opts & nc & _ & _ & _ & Hs1).
  assert (Hfl : metricsPath (flags s1) = pat) by (by rewrite Hs1).
  rewrite Hfl in H1.
  pose proof (Handle_es _ _ _ _ H1) as He1.
  pose proof (Handle_es _ _ _ _ H2) as He2.
  pose proof (Handle_es _ _ _ _ H3) as He3.
  apply Handle_inv in H1 as (Hp & _ & Hm1 & Hh1).
  apply Handle_inv in H2 as (_ & Hn2 & Hm2 & Hh2).
  apply Handle_inv in H3 as (_ & Hn3 & Hm3 & Hh3).
  assert (Hne2 : pat <> "/healthz").
  { intros E. rewrite Hm1, E, lookup_insert_eq in Hn2. discriminate. }
  assert (Hne3 : pat <> "/").
  { intros E. rewrite Hm2, lookup_insert_ne, Hm1, E, lookup_insert_eq in Hn3;
      [discriminate|done]. }
  exists mh. split; [exact Hmh|]. do 3 (split; [done|]). split; [|split].
  - rewrite Hm3, Hm2, Hm1. reflexivity.
  - rewrite Hh3, Hh2, Hh1. cbn. by destruct (decide _).
  - rewrite He3, He2, He1. cbn.
    destruct (decide (http.lastByte pat = Some http.slash)); [|done].
    cbn. destruct pat; [done|]. reflexivity.
Qed.

(** What a plain pattern is made of. *)
Lemma plainPattern_inv (pat : string) :
  plainPattern pat = true ->
  http.firstByte pat = Some http.slash /\ http.cleanPath pat = pat.
Proof.
  unfold plainPattern. intros H.
  apply andb_true_iff in H as [H _].
  apply andb_true_iff in H as [H1 H2].
  by apply bool_decide_eq_true in H1, H2.
Qed.

(** X9.  Given a metrics handler, [newServer] returns a server only when
    [-path] is neither empty, nor [/healthz], nor [/]: for each of these
    a registration panics.  For a plain path other than these it does
    return a server, which listens on the value of [-port]. *)
Theorem newServer_needs_a_free_path (s s1 : State P) hdl :
  createMetricsHandler s = (Ret (Some hdl, None), s1) ->
  let pat := metricsPath (flags s) in
  (forall srv s', newServer s = (Ret (Some srv, None), s') ->
     pat <> "" /\ pat <> "/healthz" /\ pat <> "/"
     /\ http.Addr srv = port (flags s))
  /\ (pat = "" \/ pat = "/healthz" \/ pat = "/" ->
      exists v, newServer s = (Panic v, s1))
  /\ (plainPattern pat = true -> pat <> "/healthz" -> pat <> "/" ->
      exists srv, newServer s = (Ret (Some srv, None), s1)
                  /\ http.Addr srv = port (flags s)).
Proof.
  intros Hmh pat.
  destruct (createMetricsHandler_inv _ _ _ Hmh) as (opts & nc & _ & _ & _ & Hs1).
  assert (Hfl : flags s1 = flags s) by (by rewrite Hs1).
  assert (Hrun : newServer s =
    bind (orPanic (http.Handle http.NewServeMux pat (Some hdl)))
      (fun mux =>
         bind (orPanic (http.HandleFunc mux "/healthz" (Some healthz)))
           (fun mux =>
              bind (orPanic (http.HandleFunc mux "/" (Some index)))
                (fun mux =>
                   bind (get (fun s => port (flags s)))
                     (fun addr =>
                        ret (Some {| http.Addr := addr;
                                     http.Server_Handler := mux |}, None)))))
      s1).
  { unfold newServer. rewrite (bind_Ret _ _ _ _ _ Hmh). cbn iota.
    rewrite bind_get, Hfl. reflexivity. }
  assert (Hpanic : pat = "" \/ pat = "/healthz" \/ pat = "/" ->
                   exists v, newServer s = (Panic v, s1)).
  { intros [E|[E|E]]; rewrite Hrun, E; eexists; reflexivity. }
  assert (Hfree : pat <> "" -> pat <> "/healthz" -> pat <> "/" ->
            exists srv, newServer s = (Ret (Some srv, None), s1)
                        /\ http.Addr srv = port (flags s)).
  { intros Hp Hh Hr. rewrite Hrun.
    destruct (Handle_fresh http.NewServeMux pat hdl Hp (lookup_empty _))
      as (mux1 & H1 & Hm1).
    cbn [http.m http.NewServeMux] in Hm1.
    destruct (Handle_fresh mux1 "/healthz" healthz) as (mux2 & H2 & Hm2);
      [done | rewrite Hm1, lookup_insert_ne by done; apply lookup_empty |].
    destruct (Handle_fresh mux2 "/" index) as (mux3 & H3 & Hm3); [done | |].
    { rewrite Hm2, lookup_insert_ne by done.
      rewrite Hm1, lookup_insert_ne by done. apply lookup_empty. }
    rewrite H1. unfold orPanic at 1. unfold bind at 1, ret at 1.
    unfold http.HandleFunc. rewrite H2.
    unfold orPanic at 1. unfold bind at 1, ret at 1. rewrite H3.
    unfold orPanic at 1. unfold bind at 1, ret at 1. rewrite bind_get.
    eexists. split; [reflexivity|]. cbn. by rewrite Hfl. }
  split; [|split; [exact Hpanic|]].
  - intros srv s' Hsrv.
    assert (Hne : pat <> "" /\ pat <> "/healthz" /\ pat <> "/").
    { repeat split; intros E;
        (destruct Hpanic as (v & Hv); [rewrite E; auto|]);
        rewrite Hv in Hsrv; discriminate. }
    destruct Hne as (Hp & Hh & Hr). repeat split; try done.
    destruct (Hfree Hp Hh Hr) as (srv' & Hsrv' & Haddr).
    rewrite Hsrv' in Hsrv. by injection Hsrv as <- _.
  - intros Hplain Hh Hr.
    apply Hfree; [|done..].
    apply plainPattern_inv in Hplain as [Hfirst _].
    by eapply firstByte_not_empty.
Qed.

(** X10.  When [-path] is a plain path that does not end in a slash, a
    request whose path is in canonical form and is neither the value of
    [-path] nor [/healthz] is answered with status 200 and the landing
    page, which links to the value of [-path]: such a request is never
    answered with 404 and is never redirected. *)
Theorem other_paths_get_landing_page (s s' : State P) srv
  (amb : Ambient P) (r : http.Request) :
  newServer s = (Ret (Some srv, None), s') ->
  plainPattern (metricsPath (flags s)) = true ->
  http.lastByte (metricsPath (flags s)) <> Some http.slash ->
  http.firstByte (http.Path r) = Some http.slash ->
  http.cleanPath (http.Path r) = http.Path r ->
  http.Path r <> metricsPath (flags s) ->
  http.Path r <> "/healthz" ->
  http.ServeHTTP (http.Server_Handler srv) amb http.fresh r =
  http.Returned
    {| http.status := Some http.StatusOK;
       http.location := None;
       http.body :=
         String.list_byte_of_string (landingPage (metricsPath (globals amb))) |}.
Proof.
  intros Hsrv Hplain Hlast Hpath Hclean Hnm Hnh.
  apply plainPattern_inv in Hplain as [Hfirst _].
  destruct (newServer_mux _ _ _ Hsrv) as (mh & _ & Hp & Hph & Hpr & Hm & Hh & He).
  set (pat := metricsPath (flags s)) in *.
  set (mux := http.Server_Handler srv) in *.
  rewrite decide_True in Hh by done. rewrite decide_False in He by done.
  pose proof (firstByte_not_empty _ _ Hpath) as Hne.
  (* a string that ends in a slash and is not the root is no pattern *)
  assert (Hslash : forall q, q <> "" -> http.m mux !! (q +:+ "/") = None).
  { intros q Hq. rewrite Hm.
    rewrite lookup_insert_ne by (apply not_eq_sym; by apply append_slash_not_slash).
    rewrite lookup_insert_ne.
    2:{ intros E. pose proof (lastByte_slash q) as L. rewrite <- E in L.
        discriminate. }
    rewrite lookup_insert_ne.
    2:{ intros E. pose proof (lastByte_slash q) as L. rewrite <- E in L. done. }
    apply lookup_empty. }
  unfold http.ServeHTTP.
  destruct (decide (http.Path r = "*")) as [E|_];
    [rewrite E in Hpath; discriminate|].
  destruct (decide (http.Path r = "/")) as [Hroot|Hroot].
  { (* the root itself is registered *)
    assert (Hexact : http.m mux !! http.Path r
                     = Some (http.mkMuxEntry index "/")).
    { rewrite Hm, Hroot. apply lookup_insert_eq. }
    by rewrite (ServeMux_Handler_exact _ r _ Hh Hexact Hclean). }
  assert (Hexact : http.m mux !! http.Path r = None).
  { rewrite Hm. rewrite !lookup_insert_ne by done. apply lookup_empty. }
  assert (Hred : forall host query,
            http.redirectToPathSlash mux host (http.Path r) query = None).
  { intros host query. unfold http.redirectToPathSlash, http.shouldRedirect.
    rewrite Hexact.
    rewrite decide_False by (by intros [? ?]).
    destruct (decide (is_Some (http.m mux !! (host +:+ http.Path r))));
      [done|].
    rewrite decide_False by done.
    rewrite (Hslash (http.Path r) Hne).
    rewrite decide_False by (by intros [? ?]).
    rewrite append_assoc, Hslash by (by apply append_not_empty).
    by rewrite decide_False by (by intros [? ?]). }
  assert (Hserve : forall host,
            http.handler mux host (http.Path r) = index).
  { intros host. unfold http.handler, http.match_.
    rewrite Hh, Hexact, He. cbn [find http.pattern].
    by rewrite (prefix_slash _ Hpath). }
  unfold http.ServeMux_Handler. rewrite Hclean, !Hred, !Hserve.
  destruct (decide (http.Method r = "CONNECT")); [done|].
  by destruct (decide (http.Path r <> http.Path r)).
Qed.

End RoutingProperties.

(** ** The shape of the option list, the credentials *)

Section ShapeProperties.
Context {Y : Yaml} {P : Client} {R : Runtime}.

Lemma appendIf_app (b : bool) (opts : list collector.Option)
  (o : collector.Option) :
  appendIf b opts o = opts ++ (if b then [o] else []).
Proof. destruct b; [done|]. by rewrite app_nil_r. Qed.

Lemma sublist_pick_cons (b : bool) (x : collector.Option) l k :
  l `sublist_of` k -> (if b then [x] else []) ++ l `sublist_of` x :: k.
Proof. intros H. destruct b; by constructor. Qed.

Lemma NoDup_allOptions (t : Z) (i : bool) : NoDup (allOptions t i).
Proof.
  unfold allOptions.
  repeat (apply NoDup_cons; split;
          [rewrite ?not_elem_of_cons; repeat split;
           first [discriminate | apply not_elem_of_nil]|]).
  apply NoDup_nil_2.
Qed.

(** X11.  The option list follows the order of the source: it is a
    subsequence of the twenty-one options [collectorOptions] can append,
    so no option occurs twice and the list has at most twenty-one
    entries. *)
Theorem collectorOptions_in_source_order (s : State P) (c : Config) :
  cfg s = Some c ->
  exists opts,
    collectorOptions s = (Ret opts, s)
    /\ opts `sublist_of` allOptions (timeout (flags s)) (insecure (flags s))
    /\ NoDup opts
    /\ length opts <= 21.
Proof.
  intros Hc. eexists. split; [by apply collectorOptions_run|].
  assert (Hsub : optionsOf DefaultTimeout (flags s) c
                 `sublist_of` allOptions (timeout (flags s)) (insecure (flags s))).
  { rewrite <- (app_nil_r (optionsOf _ _ _)).
    unfold optionsOf, allOptions. cbv zeta.
    rewrite !appendIf_app, <- !app_assoc. cbn [app].
    repeat apply sublist_pick_cons. constructor. }
  split; [exact Hsub|]. split.
  - eapply sublist_NoDup; [apply NoDup_allOptions | exact Hsub].
  - apply sublist_length in Hsub. exact Hsub.
Qed.

Lemma enabled_nil flag tog (s : State P) :
  cfg s = None ->
  enabled flag tog s =
  if flag (flags s) then (Ret true, s)
  else (Panic nilDereference, s).
Proof.
  intros Hc. unfold enabled. rewrite bind_get.
  destruct (flag (flags s)); [reflexivity|]. by rewrite bind_get, Hc.
Qed.

(** One [if] of [collectorOptions] with [cfg] nil: the flag decides. *)
Ltac step_nil Hc :=
  unfold bind at 1; rewrite (enabled_nil _ _ _ Hc);
  match goal with
  | |- context [if ?f (flags ?s) then _ else _] =>
      destruct (f (flags s)) eqn:?
  end.

(** X12.  With [cfg] nil, [collectorOptions] dereferences a nil pointer
    and panics as soon as one feature flag is false; it returns a list
    only when all nineteen feature flags are set. *)
Theorem collectorOptions_nil_cfg (s : State P) :
  cfg s = None ->
  ((exists F, cliFlag F (flags s) = false) ->
   collectorOptions s =
   (Panic nilDereference, s))
  /\ ((forall F, cliFlag F (flags s) = true) ->
      exists opts, collectorOptions s = (Ret opts, s)).
Proof.
  intros Hc. split.
  - intros [F HF]. unfold collectorOptions.
    repeat (step_nil Hc; [cbn beta iota zeta | reflexivity]).
    exfalso. destruct F; cbn in HF;
      match goal with
      | H : ?flag = true |- _ => rewrite HF in H; discriminate H
      end.
  - intros Hall. unfold collectorOptions.
    pose proof (Hall bgp); pose proof (Hall conntrack);
      pose proof (Hall routes); pose proof (Hall dhcp);
      pose proof (Hall dhcpl); pose proof (Hall dhcpv6);
      pose proof (Hall firmware); pose proof (Hall health);
      pose proof (Hall poe); pose proof (Hall pools);
      pose proof (Hall optics); pose proof (Hall w60g);
      pose proof (Hall wlansta); pose proof (Hall capsman);
      pose proof (Hall wlanif); pose proof (Hall monitor);
      pose proof (Hall ipsec); pose proof (Hall lte);
      pose proof (Hall netwatch).
    cbn [cliFlag] in *.
    assert (Hrun : collectorOptions s =
                   (Ret (appendIf (tls (flags s))
                           (appendIf (bool_decide (timeout (flags s) <> DefaultTimeout))
                              (removelast (removelast (allOptions 0 false)))
                              (collector.WithTimeout (timeout (flags s))))
                           (collector.WithTLS (insecure (flags s)))), s));
      [|eauto].
    unfold collectorOptions.
    repeat (step_nil Hc;
            [ cbn beta iota zeta
            | exfalso;
              match goal with
              | H : false = true |- _ => discriminate H
              end ]).
    rewrite !bind_get. unfold appendIf at 1.
    destruct (tls (flags s)); [rewrite bind_get|]; reflexivity.
Qed.

(** The state [loadConfigFromFlags] leaves behind. *)
Lemma loadConfigFromFlags_state (s : State P) :
  exists r,
    loadConfigFromFlags s =
    (Ret r,
     appendTrace (envReads s)
       (withFlags
          (setPassword (passwordOrEnv s) (setUser (userOrEnv s) (flags s))) s))
    /\ (user (flags s) <> "" -> password (flags s) <> "" ->
        loadConfigFromFlags s = (Ret r, s)).
Proof.
  destruct s as [fl c lg env fs tr].
  destruct fl as [address0 configFile0 device0 insecure0 logFormat0 logLevel0
    metricsPath0 password0 deviceport0 port0 timeout0 tls0 user0 ver0
    withBgp0 withConntrack0 withRoutes0 withDHCP0 withDHCPL0 withDHCPv60
    withFirmware0 withHealth0 withPOE0 withPools0 withOptics0 withW60G0
    withWlanSTA0 withWlanIF0 withCapsman0 withMonitor0 withIpsec0 withLte0
    withNetwatch0].
  unfold loadConfigFromFlags, envReads, userOrEnv, passwordOrEnv,
    appendTrace, withFlags.
  rewrite bind_get. cbn [flags main.user main.password environ].
  destruct (decide (user0 = "")) as [Hu|Hu];
    unfold bind at 1; cbn;
    destruct (decide (password0 = "")) as [Hp|Hp];
    unfold bind at 1; cbn;
    match goal with
    | |- context [if ?b then _ else _] => destruct b
    end;
    (eexists; split;
     [ rewrite <- ?app_assoc, ?app_nil_r; reflexivity
     | intros; cbn in *; done ]).
Qed.

(** X13.  [loadConfigFromFlags] reads [MIKROTIK_USER] only when [-user]
    is empty and [MIKROTIK_PASSWORD] only when [-password] is empty, in
    that order; it stores what it read in those two flag variables and
    changes nothing else.  With both flags given it reads nothing and
    leaves the state as it was. *)
Theorem loadConfigFromFlags_env_only_for_empty_flags (s : State P) :
  exists r,
    loadConfigFromFlags s =
    (Ret r,
     appendTrace (envReads s)
       (withFlags
          (setPassword (passwordOrEnv s) (setUser (userOrEnv s) (flags s))) s))
    /\ (user (flags s) <> "" -> password (flags s) <> "" ->
        loadConfigFromFlags s = (Ret r, s)).
Proof. apply loadConfigFromFlags_state. Qed.

End ShapeProperties.

(** ** A whole run of [main] *)

Section WholeRunProperties.
Context {Y : Yaml} {P : Client} {R : Runtime}.

Lemma emitsOnly_ret {A} Q (a : A) : emitsOnly (P := P) Q (ret a).
Proof. intros s. exists []. by rewrite appendTrace_nil. Qed.

Lemma emitsOnly_get {A} Q (f : State P -> A) : emitsOnly Q (get f).
Proof. intros s. exists []. by rewrite appendTrace_nil. Qed.

Lemma emitsOnly_panic {A} Q (v : string) : emitsOnly (P := P) Q (panic (A := A) v).
Proof. intros s. exists []. by rewrite appendTrace_nil. Qed.

Lemma emitsOnly_exit {A} Q (code : Z) : emitsOnly (P := P) Q (os_Exit (A := A) code).
Proof. intros s. exists []. by rewrite appendTrace_nil. Qed.

Lemma emitsOnly_emit Q (e : Event P) : Q e = true -> emitsOnly Q (emit e).
Proof. intros He s. exists [e]. split; [reflexivity|]. by repeat constructor. Qed.

Lemma emitsOnly_bind {A B} Q (c : M A) (k : A -> M B) :
  emitsOnly Q c -> (forall a, emitsOnly Q (k a)) -> emitsOnly Q (bind c k).
Proof.
  intros Hc Hk s. unfold bind. destruct (Hc s) as (evs & E & F).
  destruct (c s) as [[a|code|v] s1]; cbn in E; subst s1; [|by eauto..].
  destruct (Hk a (appendTrace evs s)) as (evs2 & E2 & F2).
  exists (evs ++ evs2). rewrite E2, appendTrace_app. split; [done|].
  by apply Forall_app.
Qed.


(** Breaks a computation of the program into its steps. *)
Ltac emits :=
  repeat first
    [ apply emitsOnly_ret
    | apply emitsOnly_get
    | apply emitsOnly_panic
    | apply emitsOnly_exit
    | apply emitsOnly_emit; reflexivity
    | apply emitsOnly_bind; [|intros ?]
    | match goal with
      | |- emitsOnly _ (match ?x with _ => _ end) => destruct x
      end ].


(** With a configuration in place, the state [createMetricsHandler]
    leaves behind. *)
Lemma createMetricsHandler_state (s : State P) (c : Config) :
  cfg s = Some c ->
  (createMetricsHandler s).2 =
  appendTrace [EvNewCollector (Some c) (optionsOf DefaultTimeout (flags s) c)] s.
Proof.
  intros Hc. unfold createMetricsHandler.
  rewrite (bind_Ret _ _ _ _ _ (collectorOptions_run s c Hc)).
  rewrite bind_get, Hc. unfold bind at 1. cbn [emit].
  fold (appendTrace [EvNewCollector (Some c) (optionsOf DefaultTimeout (flags s) c)] s).
  unfold ret, panic, Register, NewRegistry.
  destruct (NewCollector _ _) as [nc [err|]]; [done|].
  destruct (registerError _ _); [done|].
  destruct nc as [nc|]; [|done].
  by destruct (registerError _ _).
Qed.

Lemma bind_assoc {A B C} (c : M A) (k1 : A -> M B) (k2 : B -> M C) (s : State P) :
  bind (bind c k1) k2 s = bind c (fun a => bind (k1 a) k2) s.
Proof. unfold bind. by destruct (c s) as [[a|code|v] s1]. Qed.

(** After the handler, [main] only logs and calls [ListenAndServe]. *)
Lemma afterHandler_emits r : emitsOnly tailEvent (afterHandler r).
Proof.
  unfold afterHandler, log_WithError_Fatal, log_Infof, entry_Log,
    srv_ListenAndServe, orPanic.
  emits.
Qed.

(** [main], from the moment the configuration is loaded. *)
Lemma main_after_load_steps (s s0 s1 : State P) (c : option Config) :
  ver (flags s) = false ->
  configureLog s = (Ret tt, s0) ->
  loadConfig s0 = (Ret (c, None), s1) ->
  main s = bind createMetricsHandler afterHandler (withCfg c s1).
Proof.
  intros Hv Hlog Hload.
  rewrite (main_after_load s s0 s1 c Hv Hlog Hload).
  unfold newServer. rewrite bind_assoc. reflexivity.
Qed.

(** X15.  When the configuration loads, [main] builds the collector
    right after the load, from the configuration [loadConfig] returned and
    from the option list of the flags and that configuration; every event
    that follows is an entry of the log or the call of [ListenAndServe],
    so the collector is built exactly once. *)
Theorem main_builds_collector_from_loaded_config
  (s s0 s1 : State P) (c : Config) :
  ver (flags s) = false ->
  configureLog s = (Ret tt, s0) ->
  loadConfig s0 = (Ret (Some c, None), s1) ->
  exists evs,
    trace (main s).2 =
    trace s1
    ++ EvNewCollector (Some c) (optionsOf DefaultTimeout (flags s1) c) :: evs
    /\ Forall (fun e => tailEvent e = true) evs
    /\ Forall (fun e => collectorEvent e = false) evs.
Proof.
  intros Hv Hlog Hload.
  rewrite (main_after_load_steps s s0 s1 (Some c) Hv Hlog Hload).
  pose proof (createMetricsHandler_state (withCfg (Some c) s1) c eq_refl) as Hst.
  unfold bind.
  destruct (createMetricsHandler (withCfg (Some c) s1)) as [[r|code|v] s2];
    cbn [snd] in Hst; subst s2.
  - destruct (afterHandler_emits r
                (appendTrace
                   [EvNewCollector (Some c)
                      (optionsOf DefaultTimeout (flags (withCfg (Some c) s1)) c)]
                   (withCfg (Some c) s1))) as (evs & -> & Hevs).
    exists evs. split; [cbn; by rewrite <- app_assoc|]. split; [exact Hevs|].
    eapply Forall_impl; [exact Hevs|]. by intros [].
  - exists []. by repeat split.
  - exists []. by repeat split.
Qed.



(** Membership of a feature's option in the list, whatever the timeout
    and the TLS flags are. *)
Lemma In_optionsOf (t : Z) (fl : Flags) (c : Config) (F : Feature) :
  In (optionFor F) (optionsOf t fl c) <->
  cliFlag F fl = true \/ toggle F (Features_ c) = true.
Proof.
  destruct F; cbn [optionFor cliFlag toggle];
    unfold optionsOf; cbv zeta;
    repeat first
      [ rewrite In_appendIf_other by discriminate
      | rewrite In_appendIf_same ];
    cbn [In]; rewrite ?orb_true_iff; tauto.
Qed.

(** X17.  Without [-config-file], the flags alone choose the features:
    once [loadConfig] has returned the single-device configuration and
    [main] has stored it, the option of a feature is in the list of
    [collectorOptions] if and only if the feature's command-line flag is
    set, as the flags stood before the load. *)
Theorem flags_alone_choose_features_without_file
  (s s1 : State P) (c : Config) (F : Feature) :
  configFile (flags s) = "" ->
  loadConfig s = (Ret (Some c, None), s1) ->
  exists opts,
    collectorOptions (withCfg (Some c) s1) = (Ret opts, withCfg (Some c) s1)
    /\ (In (optionFor F) opts <-> cliFlag F (flags s) = true).
Proof.
  intros Hf Hload.
  unfold loadConfig in Hload. rewrite bind_get in Hload.
  destruct (decide (configFile (flags s) <> "")); [done|].
  destruct (loadConfigFromFlags_state s) as (r & Hst & _).
  destruct (loadConfigFromFlags_run s) as (s' & Hrun & _).
  rewrite Hst in Hload. rewrite Hst in Hrun.
  injection Hload as Hr Hs1. injection Hrun as Hr' _.
  rewrite Hr in Hr'.
  assert (Hfeat : Features_ c = zeroFeatures).
  { destruct (_ || _) in Hr'; [discriminate|]. by injection Hr' as ->. }
  eexists. split; [by apply collectorOptions_run|].
  rewrite In_optionsOf, Hfeat, <- Hs1.
  split.
  - intros [Hflag|Htog]; [by destruct F|by destruct F].
  - intros Hflag. left. by destruct F.
Qed.

End WholeRunProperties.

(** ** The program run on the stand-ins *)

Section Runs.
Import fixture.

Local Abbreviation run_main := (main.main (Y := yaml) (R := runtime)).
Local Abbreviation run_loadConfig := (loadConfig (Y := yaml) (P := client)).
Local Abbreviation run_collectorOptions := (collectorOptions (R := runtime)).
Local Abbreviation run_newServer := (newServer (R := runtime)).
Local Abbreviation run_createMetricsHandler := (createMetricsHandler (R := runtime)).
#[local] Existing Instance net.

(** [-version] prints the version and exits with status 0. *)
Example main_prints_version :
  let fl := setVer true singleRouter in
  run_main (start fl) =
  (Exit 0, appendTrace [EvPrintf ("Version: 1.0.0" +:+ LF)] (start fl)).
Proof. reflexivity. Qed.

(** No argument at all: there is no device to monitor, status 3. *)
Example main_without_arguments :
  (run_main (start (defaultFlags fiveSeconds))).1 = Exit 3.
Proof. reflexivity. Qed.

(** A single device whose credentials come from the environment: the
    server is built and started, and [main] returns when it is closed. *)
Example main_serves_single_device :
  (run_main (start singleRouter)).1 = Ret tt
  /\ cfg (run_main (start singleRouter)).2 =
     Some (singleDevice "router" "10.0.0.1" "prometheus" "secret" "8728")
  /\ map serverEvent (trace (run_main (start singleRouter)).2) =
     [false; false; true; false; true].
Proof. vm_compute. done. Qed.

(** A file that is no mapping: status 3, and no server. *)
Example main_rejects_broken_file :
  (run_main (start brokenFile)).1 = Exit 3
  /\ trace (run_main (start brokenFile)).2 =
     [ EvReadFile "broken.yml";
       EvLog log.ErrorLevel None
         ("Could not load config: yaml: unmarshal errors:" +:+ LF
          +:+ "  line 1: cannot unmarshal !!str `hello` into config.Config") ].
Proof. vm_compute. done. Qed.

(** A merge key brings the sections of the mapping it points to into
    the [Config]. *)
Example Load_merges :
  exists c,
    Load (Y := yaml) (bytes "<<: {features: {bgp: true}}") = (Some c, None)
    /\ BGP (Features_ c) = true.
Proof. eexists. split; reflexivity. Qed.

(** A merge key needs a mapping. *)
Example merge_wants_a_mapping :
  (unmarshal (Y := yaml) (ydoc (ymap [(ystr "<<", ystr "hello")]))
     zeroConfig newDecoder).1.1
  = Some "map merge requires map or sequence of maps as the value".
Proof. reflexivity. Qed.

(** A path that is not in canonical form is redirected to the one that
    is, and a path registered only with a slash at its end to that one. *)
Example unclean_path_is_redirected :
  let s := loaded singleRouter oneDevice in
  http.ServeHTTP (http.Server_Handler (serverOf s))
    (mkAmbient (P := client) singleRouter true) http.fresh
    (request "GET" "localhost" "//favicon.ico") =
  http.Returned
    {| http.status := Some 301%Z;
       http.location := Some "/favicon.ico";
       http.body := [] |}.
Proof. vm_compute. reflexivity. Qed.

(** With [-log-level panic] a fatal entry is not written; the process
    exits with status 1 all the same. *)
Example fatal_not_logged_at_panic_level :
  let s := start (atLevel "panic" withCredentials) in
  (main.main (Y := yaml) (R := runtimeDown) s).1 = Exit 1
  /\ map listenEvent (trace (main.main (Y := yaml) (R := runtimeDown) s).2)
     = [false].
Proof. vm_compute. done. Qed.

(** C4, on a document that does not decode and on one that does. *)
Lemma Load_fails_iff_Unmarshal_fails_witness :
  Load (Y := yaml) (bytes "hello") =
    (None, Some (TypeError
       ["line 1: cannot unmarshal !!str `hello` into config.Config"]))
  /\ exists c, Load (Y := yaml) (bytes "features: {bgp: true}") = (Some c, None)
               /\ Devices c = [] /\ BGP (Features_ c) = true.
Proof.
  split.
  - apply (Load_fails_iff_Unmarshal_fails (Y := yaml) (bytes "hello")).
    reflexivity.
  - destruct (Load_fails_iff_Unmarshal_fails (Y := yaml)
                (bytes "features: {bgp: true}")) as (_ & _ & H).
    destruct (H eq_refl) as (c & Hc & Hd & Hf).
    exists c. split; [exact Hc|]. split; [exact Hd|].
    rewrite Hf. reflexivity.
Defined.






(** C1, for BGP switched on by its flag alone and for routes switched on
    by neither source. *)
Lemma collectorOptions_feature_iff_witness :
  let s := loaded singleRouter oneDevice in
  cfg s = Some oneDevice
  /\ (exists opts, run_collectorOptions s = (Ret opts, s)
                   /\ In collector.WithBGP opts)
  /\ (exists opts, run_collectorOptions s = (Ret opts, s)
                   /\ ~ In collector.WithRoutes opts).
Proof.
  split; [reflexivity|]. split.
  - destruct (collectorOptions_feature_iff (R := runtime)
                (loaded singleRouter oneDevice) oneDevice bgp eq_refl)
      as (opts & Hrun & Hiff).
    exists opts. split; [exact Hrun|]. apply Hiff. left. reflexivity.
  - destruct (collectorOptions_feature_iff (R := runtime)
                (loaded singleRouter oneDevice) oneDevice routes eq_refl)
      as (opts & Hrun & Hiff).
    exists opts. split; [exact Hrun|]. intros Hin. apply Hiff in Hin.
    destruct Hin; discriminate.
Defined.

(** C6, for [-tls -insecure]. *)
Lemma collectorOptions_tls_witness :
  let s := loaded fromFile oneDevice in
  cfg s = Some oneDevice
  /\ exists opts, run_collectorOptions s = (Ret opts, s)
                  /\ In (collector.WithTLS true) opts
                  /\ ~ In (collector.WithTLS false) opts.
Proof.
  split; [reflexivity|].
  destruct (collectorOptions_tls (R := runtime)
              (loaded fromFile oneDevice) oneDevice eq_refl)
    as (opts & Hrun & Hiff & _).
  exists opts. split; [exact Hrun|]. split.
  - apply Hiff. split; reflexivity.
  - intros Hin. apply Hiff in Hin. destruct Hin; discriminate.
Defined.

(** C7, for [-timeout 10s] against a default of five seconds. *)
Lemma collectorOptions_timeout_witness :
  let s := loaded fromFile oneDevice in
  cfg s = Some oneDevice
  /\ exists opts, run_collectorOptions s = (Ret opts, s)
                  /\ In (collector.WithTimeout 10000000000) opts
                  /\ collector.timeoutOf fiveSeconds opts = 10000000000%Z.
Proof.
  split; [reflexivity|].
  destruct (collectorOptions_timeout (R := runtime)
              (loaded fromFile oneDevice) oneDevice eq_refl)
    as (opts & Hrun & Hiff & Ht).
  exists opts. split; [exact Hrun|]. split.
  - apply Hiff. split; [discriminate|reflexivity].
  - exact Ht.
Defined.

(** C8, for a command line that names the device and its address and
    leaves the credentials to the environment. *)
Lemma loadConfig_single_device_witness :
  configFile (flags (start singleRouter)) = ""
  /\ exists s',
       run_loadConfig (start singleRouter) =
       (Ret (Some (singleDevice "router" "10.0.0.1" "prometheus" "secret" "8728"),
             None), s')
       /\ user (flags s') = "prometheus" /\ password (flags s') = "secret".
Proof.
  split; [reflexivity|].
  destruct (loadConfig_single_device (Y := yaml) (start singleRouter) eq_refl)
    as (r & s' & Hrun & Hu & Hp & _ & _ & Hok).
  exists s'. rewrite Hrun, Hok.
  - split; [reflexivity|]. split; [exact Hu | exact Hp].
  - cbn. intros [H|[H|[H|H]]]; discriminate.
Defined.

(** C9, for [-config-file config.yml]. *)
Lemma loadConfig_file_only_witness :
  exists c,
    run_loadConfig (start fromFile) =
    (Ret (Some c, None), appendTrace [EvReadFile "config.yml"] (start fromFile))
    /\ Devices c = [] /\ BGP (Features_ c) = true.
Proof.
  destruct (loadConfig_file_only (Y := yaml) (start fromFile)) as [H _].
  destruct H as (_ & Hrun & _); [discriminate|].
  eexists. split; [exact Hrun|]. split; reflexivity.
Defined.

(** C2, for a command line with no [-device]. *)
Lemma main_exits_3_on_config_error_witness :
  let s := start noDevice in
  ver (flags s) = false
  /\ (run_main s).1 = Exit 3
  /\ trace (run_main s).2 =
     [ EvGetenv "MIKROTIK_USER"; EvGetenv "MIKROTIK_PASSWORD";
       EvLog log.ErrorLevel None
         "Could not load config: missing required param for single device configuration" ].
Proof.
  split; [reflexivity|].
  pose (s0 := (configureLog (R := runtime) (start noDevice)).2).
  pose (s1 := (run_loadConfig s0).2).
  destruct (main_exits_3_on_config_error (Y := yaml) (R := runtime)
              (start noDevice) s0 s1 None
              (errorString "missing required param for single device configuration")
              eq_refl eq_refl eq_refl) as [Hmain _].
  rewrite Hmain. split; reflexivity.
Defined.

(** C2 as worded fails for [-address 10.0.0.1 -log-level fatal] with no
    [-device]: loading fails and [main] exits with status 3, but the
    error level is not enabled and nothing is logged. *)
Lemma config_error_not_logged_at_fatal_level :
  let s := start (atLevel "fatal" noDevice) in
  (run_loadConfig s).1 =
    Ret (None, Some (errorString
           "missing required param for single device configuration"))
  /\ (run_main s).1 = Exit 3
  /\ trace (run_main s).2 =
     [ EvGetenv "MIKROTIK_USER"; EvGetenv "MIKROTIK_PASSWORD" ].
Proof. vm_compute. done. Qed.

(** C3, for a scrape during which the devices cannot be reached: the
    collector raises an error, and the answer is still 200 with the
    families of both collectors. *)
Lemma metrics_handler_continues_on_error_witness :
  let s := loaded singleRouter oneDevice in
  (deviceCollector false).2 <> []
  /\ metricsHandlerOf s (mkAmbient (P := client) singleRouter false) http.fresh
       (request "GET" "localhost" "/metrics") =
     http.Returned
       {| http.status := Some 200%Z;
          http.location := None;
          http.body := bytes ("go_goroutines 7" +:+ LF
                              +:+ "mikrotik_scrape_collector_success 0" +:+ LF) |}.
Proof.
  split; [discriminate|].
  destruct (metrics_handler_continues_on_error (R := runtime)
              (loaded singleRouter oneDevice)
              (run_createMetricsHandler (loaded singleRouter oneDevice)).2
              (metricsHandlerOf (loaded singleRouter oneDevice))
              eq_refl)
    as (opts & nc & Hnc & _ & Hresp).
  - intros sc. discriminate.
  - injection Hnc as <-. rewrite Hresp. reflexivity.
Defined.

(** C5 as stated fails: started with [-path example.com/healthz], the
    server answers a request for [/healthz] on that host with the metrics
    and not with [ok]. *)
Lemma healthz_shadowed_by_host_pattern :
  let s := loaded hostPattern oneDevice in
  let r := http.mkRequest "GET" "example.com" "/healthz" "" "" "" in
  let amb := mkAmbient (P := client) hostPattern false in
  exists srv s',
    run_newServer s = (Ret (Some srv, None), s')
    /\ http.Path r = "/healthz"
    /\ http.ServeHTTP (http.Server_Handler srv) amb http.fresh r =
       http.Returned
         {| http.status := Some 200%Z;
            http.location := None;
            http.body := bytes ("go_goroutines 7" +:+ LF
                                +:+ "mikrotik_scrape_collector_success 0" +:+ LF) |}
    /\ http.ServeHTTP (http.Server_Handler srv) amb http.fresh r <>
       http.Returned
         {| http.status := Some 200%Z;
            http.location := None;
            http.body := bytes "ok" |}.
Proof.
  exists (serverOf (loaded hostPattern oneDevice)),
         (run_newServer (loaded hostPattern oneDevice)).2.
  split; [reflexivity|]. split; [reflexivity|].
  assert (H : http.ServeHTTP
                (http.Server_Handler (serverOf (loaded hostPattern oneDevice)))
                (mkAmbient (P := client) hostPattern false) http.fresh
                (http.mkRequest "GET" "example.com" "/healthz" "" "" "") =
              http.Returned
                {| http.status := Some 200%Z;
                   http.location := None;
                   http.body := bytes ("go_goroutines 7" +:+ LF
                     +:+ "mikrotik_scrape_collector_success 0" +:+ LF) |})
    by (vm_compute; reflexivity).
  split; [exact H|]. rewrite H. discriminate.
Qed.

(** C5 as amended, for the default [-path]. *)
Lemma healthz_answers_ok_witness :
  let s := loaded singleRouter oneDevice in
  http.firstByte (metricsPath (flags s)) = Some http.slash
  /\ http.ServeHTTP (http.Server_Handler (serverOf s))
       (mkAmbient (P := client) singleRouter false) http.fresh
       (request "GET" "example.com" "/healthz") =
     http.Returned {| http.status := Some 200%Z;
                      http.location := None;
                      http.body := bytes "ok" |}.
Proof.
  split; [reflexivity|].
  apply (healthz_answers_ok (R := runtime)
           (loaded singleRouter oneDevice)
           (run_newServer (loaded singleRouter oneDevice)).2
           (serverOf (loaded singleRouter oneDevice))
           (mkAmbient (P := client) singleRouter false)
           (request "GET" "example.com" "/healthz"));
    reflexivity.
Defined.

(** The configuration loaded from [config.yml] is not nil. *)
Lemma loadConfig_returns_config_witness :
  exists c s', run_loadConfig (start fromFile) = (Ret (Some c, None), s').
Proof.
  destruct (run_loadConfig (start fromFile)) as [[[c [err|]]|code|v] s'] eqn:E;
    try (vm_compute in E; discriminate).
  destruct (loadConfig_returns_config (Y := yaml) (start fromFile) s' c E)
    as [c' ->].
  exists c', s'. reflexivity.
Defined.

(** The options passed to [collector.NewCollector] for
    [-device router -address 10.0.0.1 -with-bgp]. *)
Lemma createMetricsHandler_passes_options_witness :
  let s := loaded singleRouter oneDevice in
  cfg s = Some oneDevice
  /\ trace (run_createMetricsHandler s).2 =
     [EvNewCollector (Some oneDevice) [collector.WithBGP]].
Proof.
  split; [reflexivity|].
  destruct (createMetricsHandler_passes_options (R := runtime)
              (loaded singleRouter oneDevice) oneDevice eq_refl) as [o Ho].
  rewrite Ho. reflexivity.
Defined.

(** [-path /healthz]: the panic of the second registration. *)
Lemma newServer_panics_on_healthz_path_witness :
  let s := loaded healthzPath oneDevice in
  metricsPath (flags s) = "/healthz"
  /\ exists v, (run_newServer s).1 = Panic v.
Proof.
  split; [reflexivity|].
  destruct (newServer_panics_on_healthz_path (R := runtime)
              (loaded healthzPath oneDevice)
              (run_createMetricsHandler (loaded healthzPath oneDevice)).2
              (metricsHandlerOf (loaded healthzPath oneDevice))
              eq_refl eq_refl) as [v Hv].
  exists v. cbv zeta. by rewrite Hv.
Defined.

(** [-path /metrics]: a request for [/metrics] reaches the metrics
    handler. *)
Lemma metrics_path_served_witness :
  let s := loaded singleRouter oneDevice in
  let amb := mkAmbient (P := client) singleRouter true in
  let r := request "GET" "localhost" "/metrics" in
  http.ServeHTTP (http.Server_Handler (serverOf s)) amb http.fresh r =
  http.Returned
    {| http.status := Some 200%Z;
       http.location := None;
       http.body := bytes ("go_goroutines 7" +:+ LF
                           +:+ "mikrotik_scrape_collector_success 1" +:+ LF) |}.
Proof.
  destruct (metrics_path_served (R := runtime)
              (loaded singleRouter oneDevice)
              (run_newServer (loaded singleRouter oneDevice)).2
              (serverOf (loaded singleRouter oneDevice))
              (mkAmbient (P := client) singleRouter true) http.fresh
              (request "GET" "localhost" "/metrics")
              eq_refl eq_refl eq_refl eq_refl)
    as (hdl & s1 & Hh & Hserve).
  cbv zeta. rewrite Hserve. injection Hh as <- _. reflexivity.
Defined.

(** X5, for a command line that also carries a log level logrus does not
    know. *)
Lemma main_version_exits_0_witness :
  let s := start (setVer true badLevel) in
  ver (flags s) = true
  /\ run_main s = (Exit 0, appendTrace [EvPrintf ("Version: 1.0.0" +:+ LF)] s).
Proof.
  split; [reflexivity|].
  apply (main_version_exits_0 (Y := yaml) (R := runtime)
           (start (setVer true badLevel))).
  reflexivity.
Defined.

(** X6, for [-log-level verbose]. *)
Lemma main_panics_on_invalid_log_level_witness :
  run_main (start badLevel) =
  (Panic ("not a valid logrus Level: " +:+ QUOTE +:+ "verbose" +:+ QUOTE),
   start badLevel).
Proof.
  apply (main_panics_on_invalid_log_level (Y := yaml) (R := runtime)
           (start badLevel)
           (errorString ("not a valid logrus Level: "
                         +:+ QUOTE +:+ "verbose" +:+ QUOTE)));
    reflexivity.
Defined.

(** X7, on a runtime whose collector cannot be built. *)
Lemma main_exits_1_when_server_cannot_be_created_witness :
  let s := start singleRouter in
  let c := singleDevice "router" "10.0.0.1" "prometheus" "secret" "8728" in
  (main.main (Y := yaml) (R := runtimeDown) s).1 = Exit 1
  /\ trace (main.main (Y := yaml) (R := runtimeDown) s).2 =
     [ EvGetenv "MIKROTIK_USER"; EvGetenv "MIKROTIK_PASSWORD";
       EvNewCollector (Some c) [collector.WithBGP];
       EvLog log.FatalLevel (Some (errorString "no devices"))
         "Could not create server" ].
Proof.
  pose (s := start singleRouter).
  pose (s0 := (configureLog (R := runtimeDown) s).2).
  pose (s1 := (run_loadConfig s0).2).
  pose (c := Some (singleDevice "router" "10.0.0.1" "prometheus" "secret" "8728")).
  pose (s2 := (createMetricsHandler (R := runtimeDown) (withCfg c s1)).2).
  destruct (main_exits_1_when_server_cannot_be_created
              (Y := yaml) (R := runtimeDown) s s0 s1 s2 c None
              (errorString "no devices") eq_refl eq_refl eq_refl eq_refl)
    as [Hmain _].
  cbv zeta. fold s. rewrite Hmain. split; reflexivity.
Defined.

(** X8, on a runtime where the server runs until it is closed and on one
    where the port is taken. *)
Lemma main_runs_server_witness :
  (main.main (Y := yaml) (R := runtime) (start singleRouter)).1 = Ret tt
  /\ (main.main (Y := yaml) (R := runtimeBusy) (start singleRouter)).1 = Exit 1.
Proof.
  pose (s := start singleRouter).
  pose (c := Some (singleDevice "router" "10.0.0.1" "prometheus" "secret" "8728")).
  split.
  - pose (s0 := (configureLog (R := runtime) s).2).
    pose (s1 := (run_loadConfig s0).2).
    pose (s2 := (newServer (R := runtime) (withCfg c s1)).2).
    destruct (main_runs_server (Y := yaml) (R := runtime) s s0 s1 s2 c
                (serverOn runtime (withCfg c s1))
                eq_refl eq_refl eq_refl eq_refl) as [Hok _].
    fold s. rewrite Hok; [reflexivity|]. right. reflexivity.
  - pose (s0 := (configureLog (R := runtimeBusy) s).2).
    pose (s1 := (run_loadConfig s0).2).
    pose (s2 := (newServer (R := runtimeBusy) (withCfg c s1)).2).
    destruct (main_runs_server (Y := yaml) (R := runtimeBusy) s s0 s1 s2 c
                (serverOn runtimeBusy (withCfg c s1))
                eq_refl eq_refl eq_refl eq_refl) as [_ Hbusy].
    fold s.
    rewrite (Hbusy (errorString "listen tcp :9436: bind: address already in use"));
      [reflexivity | reflexivity | discriminate].
Defined.

(** X9, for the default [-path] and [-port]. *)
Lemma newServer_needs_a_free_path_witness :
  plainPattern "/metrics" = true
  /\ exists srv s1,
       run_newServer (loaded singleRouter oneDevice) = (Ret (Some srv, None), s1)
       /\ http.Addr srv = ":9436".
Proof.
  split; [reflexivity|].
  destruct (newServer_needs_a_free_path (R := runtime)
              (loaded singleRouter oneDevice)
              (run_createMetricsHandler (loaded singleRouter oneDevice)).2
              (metricsHandlerOf (loaded singleRouter oneDevice)) eq_refl)
    as (_ & _ & Hok).
  destruct Hok as (srv & Hsrv & Haddr); [reflexivity | discriminate..|].
  exists srv, (run_createMetricsHandler (loaded singleRouter oneDevice)).2.
  split; [exact Hsrv | exact Haddr].
Defined.

(** X10, for a request for [/favicon.ico]. *)
Lemma other_paths_get_landing_page_witness :
  let s := loaded singleRouter oneDevice in
  http.ServeHTTP (http.Server_Handler (serverOf s))
    (mkAmbient (P := client) singleRouter false) http.fresh
    (request "GET" "localhost" "/favicon.ico") =
  http.Returned
    {| http.status := Some 200%Z;
       http.location := None;
       http.body := bytes (landingPage "/metrics") |}.
Proof.
  apply (other_paths_get_landing_page (R := runtime)
           (loaded singleRouter oneDevice)
           (run_newServer (loaded singleRouter oneDevice)).2
           (serverOf (loaded singleRouter oneDevice))
           (mkAmbient (P := client) singleRouter false)
           (request "GET" "localhost" "/favicon.ico"));
    first [reflexivity | discriminate].
Defined.

(** X11, for [-tls -insecure -timeout 10s]. *)
Lemma collectorOptions_in_source_order_witness :
  let s := loaded fromFile oneDevice in
  cfg s = Some oneDevice
  /\ exists opts,
       run_collectorOptions s = (Ret opts, s)
       /\ opts `sublist_of` allOptions 10000000000 true
       /\ NoDup opts.
Proof.
  split; [reflexivity|].
  destruct (collectorOptions_in_source_order (R := runtime)
              (loaded fromFile oneDevice) oneDevice eq_refl)
    as (opts & Hrun & Hsub & Hnd & _).
  exists opts. split; [exact Hrun|]. split; [exact Hsub | exact Hnd].
Defined.

(** X12, before [main] has set [cfg]. *)
Lemma collectorOptions_nil_cfg_witness :
  let s := start singleRouter in
  cfg s = None /\ cliFlag routes (flags s) = false
  /\ run_collectorOptions s =
     (Panic nilDereference, s).
Proof.
  split; [reflexivity|]. split; [reflexivity|].
  apply (collectorOptions_nil_cfg (R := runtime) (start singleRouter) eq_refl).
  exists routes. reflexivity.
Defined.

(** X13, for credentials given on the command line while the
    environment holds others. *)
Lemma loadConfigFromFlags_env_only_for_empty_flags_witness :
  environment "MIKROTIK_USER" = "prometheus"
  /\ exists r,
       loadConfigFromFlags (P := client) (start withCredentials) =
       (Ret r, start withCredentials)
       /\ r = (Some (singleDevice "router" "10.0.0.1" "admin" "hunter2" "8728"),
               None).
Proof.
  split; [reflexivity|].
  destruct (loadConfigFromFlags_env_only_for_empty_flags (P := client)
              (start withCredentials)) as (r & _ & Hsame).
  exists r. split; [apply Hsame; discriminate|].
  specialize (Hsame ltac:(discriminate) ltac:(discriminate)).
  injection Hsame as <-. reflexivity.
Defined.

(** X15, for [-device router -address 10.0.0.1 -with-bgp] and the
    credentials of the environment. *)
Lemma main_builds_collector_from_loaded_config_witness :
  exists evs,
    trace (run_main (start singleRouter)).2 =
    [EvGetenv "MIKROTIK_USER"; EvGetenv "MIKROTIK_PASSWORD"]
    ++ EvNewCollector
         (Some (singleDevice "router" "10.0.0.1" "prometheus" "secret" "8728"))
         [collector.WithBGP] :: evs
    /\ Forall (fun e => tailEvent e = true) evs.
Proof.
  pose (s := start singleRouter).
  pose (s0 := (configureLog (R := runtime) s).2).
  pose (s1 := (run_loadConfig s0).2).
  destruct (main_builds_collector_from_loaded_config (Y := yaml) (R := runtime)
              s s0 s1
              (singleDevice "router" "10.0.0.1" "prometheus" "secret" "8728")
              eq_refl eq_refl eq_refl) as (evs & E & F & _).
  exists evs. split; [exact E | exact F].
Defined.


(** X17, for [-device router -address 10.0.0.1 -with-bgp]: BGP is on. *)
Lemma flags_alone_choose_features_without_file_witness :
  let c := singleDevice "router" "10.0.0.1" "prometheus" "secret" "8728" in
  let s1 := (run_loadConfig (start singleRouter)).2 in
  exists opts,
    run_collectorOptions (withCfg (Some c) s1) = (Ret opts, withCfg (Some c) s1)
    /\ In collector.WithBGP opts.
Proof.
  intros c s1.
  destruct (flags_alone_choose_features_without_file (Y := yaml) (R := runtime)
              (start singleRouter) s1 c bgp eq_refl eq_refl)
    as (opts & Hrun & Hin).
  exists opts. split; [exact Hrun|]. apply Hin. reflexivity.
Defined.

End Runs.
